(** * Verification of the TTL cache (chapter 22) and of the JWT
      authorization chain (chapters 14 and 15)

    The development embeds the Python sources shallowly:

    - [Py]      : the Python values that travel through the cache, [repr],
                  and the built-ins that read the Unicode database, which
                  are parameters;
    - [Hashlib] : [hashlib.md5] (RFC 1321);
    - [Ch22]    : [InMemoryCache] and the [cached] decorator of
                  [phase6_deployment/ch22_performance/main.py];
    - [Jose], [Fastapi] : what the chapters use of the libraries
                  [python-jose] and [fastapi], which are not part of the
                  repository: tokens are held in parsed form, the
                  signature function is a parameter, and an exception
                  that no handler catches is kept beside the
                  [HTTPException]s;
    - [Ch15]    : [phase4_auth/ch15_permissions/main.py];
    - [Ch14]    : [phase4_auth/ch14_jwt_auth/auth.py] and [schemas.py];
    - [Samples] : small programs and data on which the definitions run.

    Clock readings ([time.time()], [datetime.now]) are explicit arguments
    of the operation that performs them. Cache timestamps are integers
    (clock ticks); [datetime] and [timedelta] values are integers of
    microseconds. The theorems follow the definitions. *)

From Stdlib Require Import ZArith String Ascii List DecimalString DecimalZ.
From stdpp Require Import gmap strings list sorting.

Local Open Scope Z_scope.

(** [inr] takes its types from the sum that is expected, so that an
    [HTTPException] is read as the failure it is (see [Fastapi.Failure]). *)
Arguments inr {A B} & _.

(* ===================================================================== *)
(** * Python values                                                       *)
(* ===================================================================== *)

Module Py.

(** The values ([Any]) stored in the cache and passed as arguments. An
    object of any other class is known to the cache only through its
    [repr] text, [PyObject]. *)
Inductive PyVal : Type :=
  | PyNone
  | PyBool (b : bool)
  | PyInt (z : Z)
  | PyStr (s : string)
  | PyTuple (items : list PyVal)
  | PyList (items : list PyVal)
  | PyObject (repr_text : string).

(** [x is not None] *)
Definition is_not_None (v : PyVal) : bool :=
  match v with
  | PyNone => false
  | _ => true
  end.

(** Characters that a string literal cannot hold conveniently. *)
Definition squote : ascii := ascii_of_nat 39.
Definition dquote : ascii := ascii_of_nat 34.
Definition backslash : ascii := ascii_of_nat 92.

Definition str1 (c : ascii) : string := String c EmptyString.

(** [", ".join(parts)] *)
Fixpoint join (sep : string) (parts : list string) : string :=
  match parts with
  | [] => EmptyString
  | [p] => p
  | p :: rest => p +:+ sep +:+ join sep rest
  end.

(** [repr] of an [int]: decimal digits, a leading minus sign when
    negative. *)
Definition repr_int (z : Z) : string :=
  DecimalString.NilZero.string_of_int (Z.to_int z).

Definition hex_digit (n : N) : ascii :=
  if (n <? 10)%N then ascii_of_N (48 + n) else ascii_of_N (87 + n).

(** Two lowercase hexadecimal digits of a byte. *)
Definition hex2 (n : N) : string :=
  String (hex_digit (n / 16)) (String (hex_digit (n mod 16)) EmptyString).

(** [width] lowercase hexadecimal digits of a number. *)
Fixpoint hex (width : nat) (n : N) : string :=
  match width with
  | O => EmptyString
  | S width' => hex width' (n / 16) +:+ str1 (hex_digit (n mod 16))
  end.

(** The two built-ins that read the Unicode character database, which is
    not reproduced: [str.isprintable] of the character with a given code
    point above U+007F, and [int] applied to a [str] ([None] when it
    raises [ValueError]). *)
Class Unicode : Type := {
  isprintable : N -> bool;
  int_of_str : string -> option Z
}.

(** The code point that a UTF-8 sequence of two, three or four bytes
    encodes. *)
Definition low_bits (mask : N) (c : ascii) : N := N.land (N_of_ascii c) mask.

Definition code_point2 (c0 c1 : ascii) : N :=
  (low_bits 31 c0 * 64 + low_bits 63 c1)%N.

Definition code_point3 (c0 c1 c2 : ascii) : N :=
  (low_bits 15 c0 * 4096 + low_bits 63 c1 * 64 + low_bits 63 c2)%N.

Definition code_point4 (c0 c1 c2 c3 : ascii) : N :=
  (low_bits 7 c0 * 262144 + low_bits 63 c1 * 4096 + low_bits 63 c2 * 64
   + low_bits 63 c3)%N.

(** [repr] of a [str], on its UTF-8 bytes. The quote is the single quote
    unless the text holds a single quote and no double quote; the quote
    and the backslash are escaped, so are tab, newline, carriage return,
    and the other ASCII control characters (as [\xhh]). A character
    above U+007F is kept when it is printable and is otherwise written
    as [\xhh], [\uhhhh] or [\Uhhhhhhhh], by the size of its code
    point. *)
Definition has_char (c : ascii) (s : string) : bool :=
  existsb (Ascii.eqb c) (list_ascii_of_string s).

Definition repr_quote (s : string) : ascii :=
  if has_char squote s && negb (has_char dquote s) then dquote else squote.

Definition repr_char (quote c : ascii) : string :=
  let n := N_of_ascii c in
  if Ascii.eqb c quote || Ascii.eqb c backslash then String backslash (str1 c)
  else if (n =? 9)%N then String backslash "t"
  else if (n =? 10)%N then String backslash "n"
  else if (n =? 13)%N then String backslash "r"
  else if (n <? 32)%N || (n =? 127)%N then String backslash ("x" +:+ hex2 n)
  else str1 c.

Section Repr.
Context {ucd : Unicode}.

Definition repr_wide (bytes : list ascii) (code : N) : string :=
  if isprintable code then string_of_list_ascii bytes
  else if (code <? 256)%N then String backslash ("x" +:+ hex 2 code)
  else if (code <? 65536)%N then String backslash ("u" +:+ hex 4 code)
  else String backslash ("U" +:+ hex 8 code).

(** The characters of the text one after the other, then the closing
    quote. A byte from 128 up starts a sequence of two (below 224),
    three (below 240) or four bytes; the bytes of a text that is cut
    short are kept. *)
Fixpoint repr_chars (quote : ascii) (bytes : list ascii) : string :=
  match bytes with
  | [] => str1 quote
  | c0 :: rest =>
      let n := N_of_ascii c0 in
      if (n <? 128)%N then repr_char quote c0 +:+ repr_chars quote rest
      else if (n <? 224)%N then
        match rest with
        | c1 :: rest1 =>
            repr_wide [c0; c1] (code_point2 c0 c1) +:+ repr_chars quote rest1
        | _ => str1 c0 +:+ repr_chars quote rest
        end
      else if (n <? 240)%N then
        match rest with
        | c1 :: c2 :: rest2 =>
            repr_wide [c0; c1; c2] (code_point3 c0 c1 c2)
            +:+ repr_chars quote rest2
        | _ => str1 c0 +:+ repr_chars quote rest
        end
      else
        match rest with
        | c1 :: c2 :: c3 :: rest3 =>
            repr_wide [c0; c1; c2; c3] (code_point4 c0 c1 c2 c3)
            +:+ repr_chars quote rest3
        | _ => str1 c0 +:+ repr_chars quote rest
        end
  end.

Definition repr_str (s : string) : string :=
  let quote := repr_quote s in
  String quote (repr_chars quote (list_ascii_of_string s)).

(** [repr] of a tuple and of a list, from the [repr] of the items; a
    tuple of one item keeps a trailing comma. *)
Definition repr_tuple (items : list string) : string :=
  match items with
  | [p] => "(" +:+ p +:+ ",)"
  | _ => "(" +:+ join ", " items +:+ ")"
  end.

Definition repr_list (items : list string) : string :=
  "[" +:+ join ", " items +:+ "]".

Fixpoint repr (v : PyVal) : string :=
  match v with
  | PyNone => "None"
  | PyBool true => "True"
  | PyBool false => "False"
  | PyInt z => repr_int z
  | PyStr s => repr_str s
  | PyTuple items => repr_tuple (map repr items)
  | PyList items => repr_list (map repr items)
  | PyObject repr_text => repr_text
  end.

End Repr.

(** An exception instance: its class name and its message. *)
Record PyExn : Type := mkExn { exn_class : string; exn_msg : string }.

(** How a call ends: [return v] or [raise e]. *)
Inductive Outcome : Type :=
  | Return (v : PyVal)
  | Raise (e : PyExn).

End Py.

(* ===================================================================== *)
(** * [hashlib.md5]                                                       *)
(* ===================================================================== *)

Module Hashlib.

(** MD5 (RFC 1321) on 32-bit words held in [Z], additions wrapping at
    [2^32]. *)
Definition wrap32 (x : Z) : Z := x mod 2 ^ 32.

Definition rotl32 (x c : Z) : Z :=
  wrap32 (Z.lor (Z.shiftl x c) (Z.shiftr x (32 - c))).

Definition not32 (x : Z) : Z := Z.lxor x 0xffffffff.

Definition shift_amounts : list Z :=
  [7; 12; 17; 22; 7; 12; 17; 22; 7; 12; 17; 22; 7; 12; 17; 22;
   5; 9; 14; 20; 5; 9; 14; 20; 5; 9; 14; 20; 5; 9; 14; 20;
   4; 11; 16; 23; 4; 11; 16; 23; 4; 11; 16; 23; 4; 11; 16; 23;
   6; 10; 15; 21; 6; 10; 15; 21; 6; 10; 15; 21; 6; 10; 15; 21].

Definition sine_table : list Z :=
  [0xd76aa478; 0xe8c7b756; 0x242070db; 0xc1bdceee;
   0xf57c0faf; 0x4787c62a; 0xa8304613; 0xfd469501;
   0x698098d8; 0x8b44f7af; 0xffff5bb1; 0x895cd7be;
   0x6b901122; 0xfd987193; 0xa679438e; 0x49b40821;
   0xf61e2562; 0xc040b340; 0x265e5a51; 0xe9b6c7aa;
   0xd62f105d; 0x02441453; 0xd8a1e681; 0xe7d3fbc8;
   0x21e1cde6; 0xc33707d6; 0xf4d50d87; 0x455a14ed;
   0xa9e3e905; 0xfcefa3f8; 0x676f02d9; 0x8d2a4c8a;
   0xfffa3942; 0x8771f681; 0x6d9d6122; 0xfde5380c;
   0xa4beea44; 0x4bdecfa9; 0xf6bb4b60; 0xbebfbc70;
   0x289b7ec6; 0xeaa127fa; 0xd4ef3085; 0x04881d05;
   0xd9d4d039; 0xe6db99e5; 0x1fa27cf8; 0xc4ac5665;
   0xf4292244; 0x432aff97; 0xab9423a7; 0xfc93a039;
   0x655b59c3; 0x8f0ccc92; 0xffeff47d; 0x85845dd1;
   0x6fa87e4f; 0xfe2ce6e0; 0xa3014314; 0x4e0811a1;
   0xf7537e82; 0xbd3af235; 0x2ad7d2bb; 0xeb86d391].

(** The message followed by the byte 128, zero bytes up to 56 modulo 64,
    and the bit length as 8 little-endian bytes. *)
Definition le_bytes (count : nat) (x : Z) : list Z :=
  map (fun i => Z.land (Z.shiftr x (8 * Z.of_nat i)) 255) (seq 0 count).

Definition pad (msg : list Z) : list Z :=
  let len := Z.of_nat (length msg) in
  let zeros := Z.to_nat ((55 - len) mod 64) in
  msg ++ [128] ++ repeat 0 zeros ++ le_bytes 8 ((8 * len) mod 2 ^ 64).

Definition le_word (b0 b1 b2 b3 : Z) : Z :=
  b0 + Z.shiftl b1 8 + Z.shiftl b2 16 + Z.shiftl b3 24.

Fixpoint words (bytes : list Z) : list Z :=
  match bytes with
  | b0 :: b1 :: b2 :: b3 :: rest => le_word b0 b1 b2 b3 :: words rest
  | _ => []
  end.

Fixpoint chunks16 (fuel : nat) (ws : list Z) : list (list Z) :=
  match fuel, ws with
  | S fuel', _ :: _ => firstn 16 ws :: chunks16 fuel' (skipn 16 ws)
  | _, _ => []
  end.

Definition md5_round (m : list Z) (st : Z * Z * Z * Z) (i : nat)
  : Z * Z * Z * Z :=
  let '(a, b, c, d) := st in
  let iz := Z.of_nat i in
  let '(f, g) :=
    if iz <? 16 then (Z.lor (Z.land b c) (Z.land (not32 b) d), iz)
    else if iz <? 32 then
      (Z.lor (Z.land d b) (Z.land (not32 d) c), (5 * iz + 1) mod 16)
    else if iz <? 48 then (Z.lxor b (Z.lxor c d), (3 * iz + 5) mod 16)
    else (Z.lxor c (Z.lor b (not32 d)), (7 * iz) mod 16) in
  let f' := wrap32 (f + a + nth i sine_table 0 + nth (Z.to_nat g) m 0) in
  (d, wrap32 (b + rotl32 f' (nth i shift_amounts 0)), b, c).

Definition md5_block (st : Z * Z * Z * Z) (m : list Z) : Z * Z * Z * Z :=
  let '(a0, b0, c0, d0) := st in
  let '(a, b, c, d) := fold_left (md5_round m) (seq 0 64) st in
  (wrap32 (a0 + a), wrap32 (b0 + b), wrap32 (c0 + c), wrap32 (d0 + d)).

Definition md5_digest (msg : list Z) : list Z :=
  let ws := words (pad msg) in
  let '(a, b, c, d) :=
    fold_left md5_block (chunks16 (length ws) ws)
      (0x67452301, 0xefcdab89, 0x98badcfe, 0x10325476) in
  le_bytes 4 a ++ le_bytes 4 b ++ le_bytes 4 c ++ le_bytes 4 d.

(** [s.encode()]: the bytes of the text. *)
Definition encode (s : string) : list Z :=
  map (fun c => Z.of_N (N_of_ascii c)) (list_ascii_of_string s).

(** [hashlib.md5(data).hexdigest()] *)
Definition md5_hexdigest (data : list Z) : string :=
  fold_right (fun b acc => Py.hex2 (Z.to_N b) +:+ acc) EmptyString
    (md5_digest data).

End Hashlib.

(* ===================================================================== *)
(** * Chapter 22: the in-memory TTL cache                                 *)
(* ===================================================================== *)

Module Ch22.
Import Py.

(** [class InMemoryCache]: [_store] maps a key to [(value, expires_at)]. *)
Record InMemoryCache : Type := mkCache {
  _store : gmap string (PyVal * Z);
  _hits : Z;
  _misses : Z
}.

(** [InMemoryCache.__init__] *)
Definition __init__ : InMemoryCache :=
  {| _store := ∅; _hits := 0; _misses := 0 |}.

(** [InMemoryCache.get]; [now] is the value of [time.time()] read by the
    comparison. The result pairs the returned value with the cache after
    the call. *)
Definition get (now : Z) (key : string) (self : InMemoryCache)
  : PyVal * InMemoryCache :=
  match _store self !! key with
  | Some (value, expires_at) =>
      if now <? expires_at then
        (value, {| _store := _store self;
                   _hits := _hits self + 1;
                   _misses := _misses self |})
      else
        (PyNone, {| _store := delete key (_store self);
                    _hits := _hits self;
                    _misses := _misses self + 1 |})
  | None =>
      (PyNone, {| _store := _store self;
                  _hits := _hits self;
                  _misses := _misses self + 1 |})
  end.

(** [InMemoryCache.set]; [now] is the value of [time.time()]. *)
Definition set (now : Z) (key : string) (value : PyVal) (ttl : Z)
    (self : InMemoryCache) : InMemoryCache :=
  let expires_at := now + ttl in
  {| _store := <[key := (value, expires_at)]> (_store self);
     _hits := _hits self;
     _misses := _misses self |}.

(** [InMemoryCache.clear] *)
Definition clear (self : InMemoryCache) : InMemoryCache :=
  {| _store := ∅; _hits := 0; _misses := 0 |}.

(** [InMemoryCache.cleanup_expired]: the number of removed entries and
    the cache after the sweep. *)
Definition cleanup_expired (now : Z) (self : InMemoryCache)
  : Z * InMemoryCache :=
  let expired_keys :=
    fst <$> filter (fun kv => now >= snd (snd kv))
              (map_to_list (_store self)) in
  (Z.of_nat (length expired_keys),
   {| _store := fold_left (fun store key => delete key store) expired_keys
                  (_store self);
      _hits := _hits self;
      _misses := _misses self |}).

(** ** The [cached] decorator *)

(** A function that can be decorated: the module that defines it, its
    [__name__], and what a call does. A call works on a state [E] (all of
    the program but the cache, which only the decorator touches) and ends
    by returning or by raising. *)
Record PyFunc (E : Type) : Type := mkFunc {
  __module__ : string;
  __name__ : string;
  call : list PyVal -> list (string * PyVal) -> E -> Outcome * E
}.
Arguments mkFunc {E}.
Arguments __module__ {E}.
Arguments __name__ {E}.
Arguments call {E}.

(** The order in which [sorted] puts the [(name, value)] items of
    [kwargs]: the names of one [dict] differ, so the names decide. *)
Definition item_le (x y : string * PyVal) : Prop := String.le x.1 y.1.

#[export] Instance item_le_dec : RelDecision item_le.
Proof. intros x y. unfold item_le. apply _. Defined.

(** [sorted(kwargs.items())] *)
Definition sorted_items (kwargs : list (string * PyVal))
  : list (string * PyVal) :=
  merge_sort item_le kwargs.

(** [f"{func.__name__}:{args}:{sorted(kwargs.items())}"] *)
Definition key_source `{Unicode} {E} (func : PyFunc E) (args : list PyVal)
    (kwargs : list (string * PyVal)) : string :=
  __name__ func +:+ ":" +:+ repr (PyTuple args) +:+ ":" +:+
  repr (PyList (map (fun kv => PyTuple [PyStr kv.1; kv.2])
                  (sorted_items kwargs))).

(** [hashlib.md5(key_source.encode()).hexdigest()] *)
Definition cache_key `{Unicode} {E} (func : PyFunc E) (args : list PyVal)
    (kwargs : list (string * PyVal)) : string :=
  Hashlib.md5_hexdigest (Hashlib.encode (key_source func args kwargs)).

(** One performed call of a wrapped function. *)
Record Invocation : Type := mkInvocation {
  inv_module : string;
  inv_name : string;
  inv_args : list PyVal;
  inv_kwargs : list (string * PyVal)
}.

(** The state a decorated call runs in: the module-level [cache], the
    state of the wrapped functions, and the log of the calls of wrapped
    functions performed so far (in order). *)
Record World (E : Type) : Type := mkWorld {
  cache : InMemoryCache;
  env : E;
  invoked : list Invocation
}.
Arguments mkWorld {E}.
Arguments cache {E}.
Arguments env {E}.
Arguments invoked {E}.

(** The log entry of a call of [func]. *)
Definition this_call {E} (func : PyFunc E) (args : list PyVal)
    (kwargs : list (string * PyVal)) : Invocation :=
  {| inv_module := __module__ func; inv_name := __name__ func;
     inv_args := args; inv_kwargs := kwargs |}.

(** [cached(ttl)(func)], the [wrapper]. [t_get] and [t_set] are the
    clock readings of [cache.get] and of [cache.set]. Calls run one after
    the other. *)
Definition cached `{Unicode} {E} (ttl : Z) (func : PyFunc E)
    (args : list PyVal) (kwargs : list (string * PyVal))
    (t_get t_set : Z) (w : World E) : Outcome * World E :=
  let cache_key := cache_key func args kwargs in
  let '(cached_result, cache1) := get t_get cache_key (cache w) in
  if is_not_None cached_result then
    (Return cached_result,
     {| cache := cache1; env := env w; invoked := invoked w |})
  else
    match call func args kwargs (env w) with
    | (Return result, env1) =>
        (Return result,
         {| cache := set t_set cache_key result ttl cache1;
            env := env1;
            invoked := invoked w ++ [this_call func args kwargs] |})
    | (Raise e, env1) =>
        (Raise e,
         {| cache := cache1; env := env1;
            invoked := invoked w ++ [this_call func args kwargs] |})
    end.

End Ch22.

(* ===================================================================== *)
(** * [jose.jwt] and the web framework                                    *)
(* ===================================================================== *)

Module Jose.

(** A [float]: the finite value [mantissa * 2 ^ exponent], an infinity
    or a NaN. *)
Inductive PyFloat : Type :=
  | Finite (mantissa exponent : Z)
  | Infinity (negative : bool)
  | NaN.

(** The values of a claims [dict]: what [json.loads] gives ([None],
    [bool], [int], [float], [str], [list], [dict]), and, before
    encoding, a [datetime] (microseconds since the epoch, UTC). *)
Inductive ClaimVal : Type :=
  | CNull
  | CBool (b : bool)
  | CInt (z : Z)
  | CFloat (x : PyFloat)
  | CStr (s : string)
  | CList (items : list ClaimVal)
  | CObject (fields : list (string * ClaimVal))
  | CDatetime (micros : Z).

(** A token as [jwt.decode] sees it after splitting and decoding the
    three segments: the header's [alg], the claims, and the signature.
    [Garbage] is any text that is not three segments holding a JSON
    header and a JSON object. *)
Inductive JWT : Type :=
  | Garbage (text : string)
  | Compact (alg : string) (claims : gmap string ClaimVal) (signature : string).

(** The exceptions in play: those of [jose], of which
    [ExpiredSignatureError] and [JWTClaimsError] are subclasses of
    [JWTError], and those of the built-in [int]. *)
Inductive Raised : Type :=
  | JWTError
  | ExpiredSignatureError
  | JWTClaimsError
  | ValueError
  | TypeError
  | OverflowError.

(** [isinstance(e, JWTError)]: what [except JWTError] catches. *)
Definition is_JWTError (e : Raised) : bool :=
  match e with
  | JWTError | ExpiredSignatureError | JWTClaimsError => true
  | ValueError | TypeError | OverflowError => false
  end.

(** [type(e).__name__] *)
Definition class_name (e : Raised) : string :=
  match e with
  | JWTError => "JWTError"
  | ExpiredSignatureError => "ExpiredSignatureError"
  | JWTClaimsError => "JWTClaimsError"
  | ValueError => "ValueError"
  | TypeError => "TypeError"
  | OverflowError => "OverflowError"
  end.

(** [timegm(d.utctimetuple())]: whole seconds since the epoch. *)
Definition timegm (micros : Z) : Z := micros / 1000000.

(** [jwt.encode] turns a [datetime] held by a time claim into seconds. *)
Definition int_date (v : ClaimVal) : ClaimVal :=
  match v with
  | CDatetime micros => CInt (timegm micros)
  | _ => v
  end.

(** The built-in [int] on the value of a claim: an integer is itself,
    [True] is 1 and [False] is 0, a finite [float] is cut towards zero,
    a text is read as a number; a text that is no number and a NaN
    raise [ValueError], an infinity raises [OverflowError], and [None],
    a list, a [dict] and a [datetime] raise [TypeError]. *)
Definition py_int `{Py.Unicode} (v : ClaimVal) : Z + Raised :=
  match v with
  | CInt z => inl z
  | CBool b => inl (if b then 1 else 0)
  | CFloat (Finite mantissa exponent) =>
      inl (if 0 <=? exponent then mantissa * 2 ^ exponent
           else Z.quot mantissa (2 ^ (- exponent)))
  | CFloat (Infinity _) => inr OverflowError
  | CFloat NaN => inr ValueError
  | CStr s =>
      match Py.int_of_str s with
      | Some z => inl z
      | None => inr ValueError
      end
  | CNull | CList _ | CObject _ | CDatetime _ => inr TypeError
  end.

(** The checks of [_validate_claims] on one claim. A time claim goes
    through [int], of which only the [ValueError] is caught and turned
    into [JWTClaimsError]; any other exception leaves [jwt.decode]. *)
Definition int_claim `{Py.Unicode} (claims : gmap string ClaimVal)
    (name : string) (check : Z -> option Raised) : option Raised :=
  match claims !! name with
  | None => None
  | Some v =>
      match py_int v with
      | inl z => check z
      | inr ValueError => Some JWTClaimsError
      | inr e => Some e
      end
  end.

Definition text_claim (claims : gmap string ClaimVal) (name : string)
  : option Raised :=
  match claims !! name with
  | None | Some (CStr _) => None
  | Some _ => Some JWTClaimsError
  end.

(** A claim that cannot be matched because [decode] was given nothing to
    compare it with ([audience], [access_token]). *)
Definition unexpected_claim (claims : gmap string ClaimVal) (name : string)
  : option Raised :=
  match claims !! name with
  | None => None
  | Some _ => Some JWTClaimsError
  end.

(** The first check that fails. *)
Fixpoint first_error (checks : list (option Raised)) : option Raised :=
  match checks with
  | [] => None
  | Some e :: _ => Some e
  | None :: rest => first_error rest
  end.

(** [_validate_claims] with the default options, no leeway, and no
    audience, issuer, subject or access token to match: [iat], [nbf],
    [exp], [aud], [sub], [jti], [at_hash], in this order. [exp] is
    expired when [exp < timegm(utcnow)]: a token is still accepted
    during its expiry second. *)
Definition validate_claims `{Py.Unicode} (claims : gmap string ClaimVal)
    (now : Z) : option Raised :=
  first_error
    [ int_claim claims "iat" (fun _ => None);
      int_claim claims "nbf"
        (fun nbf => if timegm now <? nbf then Some JWTClaimsError else None);
      int_claim claims "exp"
        (fun exp =>
           if exp <? timegm now then Some ExpiredSignatureError else None);
      unexpected_claim claims "aud";
      text_claim claims "sub";
      text_claim claims "jti";
      unexpected_claim claims "at_hash" ].

Section Signing.
Context {ucd : Py.Unicode}.

(** The signature of the algorithm [alg] under the key on the header and
    claims (HMAC with SHA-256 for [HS256]). *)
Variable sign : string -> string -> gmap string ClaimVal -> string.

(** [jwt.encode(claims, key, algorithm)] *)
Definition encode (claims : gmap string ClaimVal) (key algorithm : string)
  : JWT :=
  let claims' :=
    alter int_date "nbf" (alter int_date "iat" (alter int_date "exp" claims)) in
  Compact algorithm claims' (sign key algorithm claims').

(** [jwt.decode(token, key, algorithms)] at the clock reading [now]
    (microseconds): [jws.verify] checks the header's algorithm and the
    signature, then the claims are validated. *)
Definition decode (token : JWT) (key : string) (algorithms : list string)
    (now : Z) : gmap string ClaimVal + Raised :=
  match token with
  | Garbage _ => inr JWTError
  | Compact alg claims signature =>
      if negb (bool_decide (alg ∈ algorithms)) then inr JWTError
      else if negb (String.eqb signature (sign key alg claims)) then
        inr JWTError
      else
        match validate_claims claims now with
        | Some e => inr e
        | None => inl claims
        end
  end.

End Signing.

(** [jwt.get_unverified_claims(token)] *)
Definition get_unverified_claims (token : JWT)
  : option (gmap string ClaimVal) :=
  match token with
  | Garbage _ => None
  | Compact _ claims _ => Some claims
  end.

End Jose.

Module Fastapi.

(** [fastapi.HTTPException] *)
Record HTTPException : Type := mkHTTPException {
  status_code : Z;
  detail : string;
  headers : option (list (string * string))
}.

(** How a dependency or a handler that reads a token fails: it raises
    an [HTTPException], which the framework answers with that status, or
    an exception of another class leaves it uncaught. *)
Inductive Failure : Type :=
  | Http (e : HTTPException)
  | Uncaught (exn_class : string).

#[global] Coercion Http : HTTPException >-> Failure.

(** [fastapi.status] *)
Definition HTTP_400_BAD_REQUEST : Z := 400.
Definition HTTP_401_UNAUTHORIZED : Z := 401.
Definition HTTP_403_FORBIDDEN : Z := 403.
Definition HTTP_404_NOT_FOUND : Z := 404.

(** [timedelta(minutes=m)], in microseconds. *)
Definition timedelta_minutes (m : Z) : Z := m * 60 * 1000000.

End Fastapi.

(* ===================================================================== *)
(** * Chapter 15: permissions                                             *)
(* ===================================================================== *)

Module Ch15.
Import Jose Fastapi.

Definition SECRET_KEY : string :=
  "09d25e094faa6ca2556c818166b7a9563b93f7099f6f0f4caa6cf63b88e8d3e7".
Definition ALGORITHM : string := "HS256".
Definition ACCESS_TOKEN_EXPIRE_MINUTES : Z := 30.

Inductive Role : Type := ADMIN | USER | VIEWER.

(** [r.value] *)
Definition value (r : Role) : string :=
  match r with
  | ADMIN => "admin"
  | USER => "user"
  | VIEWER => "viewer"
  end.

#[export] Instance Role_eq_dec : EqDecision Role.
Proof. solve_decision. Defined.

(** [class Token(BaseModel)] *)
Record Token : Type := mkToken {
  access_token : JWT;
  token_type : string
}.

(** [class TokenData(BaseModel)] *)
Record TokenData : Type := mkTokenData {
  td_username : option string;
  td_scopes : list string
}.

(** [class UserInDB(BaseModel)] *)
Record UserInDB : Type := mkUserInDB {
  username : string;
  full_name : string;
  email : string;
  role : Role;
  hashed_password : string;
  disabled : bool;
  scopes : list string
}.

(** [OAuth2PasswordRequestForm]: the fields the login handler reads. *)
Record OAuth2PasswordRequestForm : Type := mkForm {
  form_username : string;
  form_password : string;
  form_scopes : list string
}.

(** [get_user] *)
Definition get_user (db : gmap string UserInDB) (username : string)
  : option UserInDB :=
  db !! username.

(** What [TokenData(username=..., scopes=token_scopes)] accepts for
    [scopes : list[str]]: a list of texts. *)
Definition as_str (v : ClaimVal) : option string :=
  match v with
  | CStr s => Some s
  | _ => None
  end.

Definition as_str_list (v : ClaimVal) : option (list string) :=
  match v with
  | CList items => mapM as_str items
  | _ => None
  end.

Section Deps.
Context {ucd : Py.Unicode}.

(** The signature function of [jose] and [pwd_context.verify] of
    [passlib]. *)
Variable sign : string -> string -> gmap string ClaimVal -> string.
Variable pwd_verify : string -> string -> bool.

(** [verify_password] *)
Definition verify_password (plain_password hashed_password : string) : bool :=
  pwd_verify plain_password hashed_password.

(** [authenticate_user] *)
Definition authenticate_user (db : gmap string UserInDB)
    (username password : string) : option UserInDB :=
  match get_user db username with
  | None => None
  | Some user =>
      if negb (verify_password password (hashed_password user)) then None
      else Some user
  end.

(** [create_access_token]; [now] is [datetime.now(timezone.utc)] and
    [expires_delta] a [timedelta], both in microseconds. A zero
    [timedelta] is false. *)
Definition create_access_token (data : gmap string ClaimVal)
    (expires_delta : option Z) (now : Z) : JWT :=
  let expire :=
    match expires_delta with
    | Some delta =>
        if delta =? 0 then now + timedelta_minutes 15 else now + delta
    | None => now + timedelta_minutes 15
    end in
  let to_encode := <["exp" := CDatetime expire]> data in
  encode sign to_encode SECRET_KEY ALGORITHM.

(** [authenticate_value] of [get_current_user] *)
Definition authenticate_value (security_scopes : list string) : string :=
  match security_scopes with
  | [] => "Bearer"
  | _ :: _ =>
      "Bearer scope=" +:+ Py.str1 Py.dquote +:+ Py.join " " security_scopes
      +:+ Py.str1 Py.dquote
  end.

(** [credentials_exception] of [get_current_user] *)
Definition credentials_exception (security_scopes : list string)
  : HTTPException :=
  {| status_code := HTTP_401_UNAUTHORIZED;
     detail := "인증 정보를 확인할 수 없습니다";
     headers := Some [("WWW-Authenticate",
                       authenticate_value security_scopes)] |}.

(** The [try] block of [get_current_user]: decode the token and build
    the [TokenData]; every [JWTError] and [ValidationError] becomes
    [credentials_exception], any other exception of [jwt.decode] passes
    through. *)
Definition verify_token (security_scopes : list string) (token : JWT)
    (now : Z) : TokenData + Failure :=
  match decode sign token SECRET_KEY [ALGORITHM] now with
  | inr e =>
      if is_JWTError e then inr (credentials_exception security_scopes)
      else inr (Uncaught (class_name e))
  | inl payload =>
      match payload !! "sub" with
      | None | Some CNull => inr (credentials_exception security_scopes)
      | Some sub =>
          let token_scopes := default (CList []) (payload !! "scopes") in
          match as_str sub, as_str_list token_scopes with
          | Some username, Some scopes =>
              inl {| td_username := Some username; td_scopes := scopes |}
          | _, _ => inr (credentials_exception security_scopes)
          end
      end
  end.

(** [get_current_user]; [security_scopes] is [security_scopes.scopes],
    [now] the clock reading of [jwt.decode]. *)
Definition get_current_user (fake_users_db : gmap string UserInDB)
    (security_scopes : list string) (token : JWT) (now : Z)
  : UserInDB + Failure :=
  match verify_token security_scopes token now with
  | inr e => inr e
  | inl token_data =>
      match from_option (get_user fake_users_db) None
              (td_username token_data) with
      | None => inr (credentials_exception security_scopes)
      | Some user =>
          if disabled user then
            inr {| status_code := HTTP_400_BAD_REQUEST;
                   detail := "비활성화된 사용자입니다";
                   headers := None |}
          else if forallb (fun scope =>
                     bool_decide (scope ∈ td_scopes token_data))
                    security_scopes
          then inl user
          else
            inr {| status_code := HTTP_401_UNAUTHORIZED;
                   detail := "이 작업에 필요한 권한이 부족합니다";
                   headers := Some [("WWW-Authenticate",
                                     authenticate_value security_scopes)] |}
      end
  end.

(** [get_current_active_user]: [Security(get_current_user, scopes=[])] *)
Definition get_current_active_user (fake_users_db : gmap string UserInDB)
    (token : JWT) (now : Z) : UserInDB + Failure :=
  get_current_user fake_users_db [] token now.

(** [role_required(allowed_roles)], the [_role_checker] *)
Definition role_required (allowed_roles : list Role)
    (fake_users_db : gmap string UserInDB) (token : JWT) (now : Z)
  : UserInDB + Failure :=
  match get_current_user fake_users_db [] token now with
  | inr e => inr e
  | inl current_user =>
      if negb (bool_decide (role current_user ∈ allowed_roles)) then
        inr {| status_code := HTTP_403_FORBIDDEN;
               detail := "접근 권한이 없습니다. 필요한 역할: " +:+
                         Py.repr (Py.PyList
                                    (map (fun r => Py.PyStr (value r))
                                       allowed_roles));
               headers := None |}
      else inl current_user
  end.

(** [login_for_access_token] *)
Definition login_for_access_token (fake_users_db : gmap string UserInDB)
    (form_data : OAuth2PasswordRequestForm) (now : Z)
  : Token + HTTPException :=
  match authenticate_user fake_users_db (form_username form_data)
          (form_password form_data) with
  | None =>
      inr {| status_code := HTTP_401_UNAUTHORIZED;
             detail := "사용자명 또는 비밀번호가 올바르지 않습니다";
             headers := Some [("WWW-Authenticate", "Bearer")] |}
  | Some user =>
      let granted_scopes :=
        filter (fun scope => scope ∈ scopes user) (form_scopes form_data) in
      let access_token_expires :=
        timedelta_minutes ACCESS_TOKEN_EXPIRE_MINUTES in
      let access_token :=
        create_access_token
          (<["scopes" := CList (CStr <$> granted_scopes)]>
             {["sub" := CStr (username user)]})
          (Some access_token_expires) now in
      inl {| access_token := access_token; token_type := "bearer" |}
  end.

End Deps.

(** ** API key, items and administration *)

Definition VALID_API_KEYS : list string :=
  ["supersecretapikey123"; "anotherapikey456"].

(** [verify_api_key]; [api_key] is the [X-API-Key] header, if any. *)
Definition verify_api_key (api_key : option string)
  : string + HTTPException :=
  match api_key with
  | None =>
      inr {| status_code := HTTP_401_UNAUTHORIZED;
             detail := "API Key가 제공되지 않았습니다. X-API-Key 헤더를 확인하세요.";
             headers := None |}
  | Some api_key =>
      if negb (bool_decide (api_key ∈ VALID_API_KEYS)) then
        inr {| status_code := HTTP_403_FORBIDDEN;
               detail := "유효하지 않은 API Key입니다";
               headers := None |}
      else inl api_key
  end.

(** An entry of [fake_items_db]. *)
Record Item : Type := mkItem {
  item_id : Z;
  item_name : string;
  item_price : Z;
  item_owner : string
}.

(** The answers of [create_item], [user_dashboard] and
    [admin_delete_user]. *)
Record ItemCreated : Type := mkItemCreated {
  created_message : string;
  created_item : Item;
  created_by : string
}.

Record Dashboard : Type := mkDashboard {
  dashboard_user : string;
  dashboard_role : Role;
  my_items : list Item;
  my_items_count : Z
}.

Record UserDeleted : Type := mkUserDeleted {
  deleted_message : string;
  deleted_user : string
}.

Section Endpoints.
Context {ucd : Py.Unicode}.

Variable sign : string -> string -> gmap string ClaimVal -> string.

(** [create_item]: the dependency
    [Security(get_current_user, scopes=["items:write"])] runs first; the
    result pairs the answer with [fake_items_db] after the call. *)
Definition create_item (fake_users_db : gmap string UserInDB)
    (fake_items_db : list Item) (token : JWT) (now : Z)
    (name : string) (price : Z)
  : (ItemCreated + Failure) * list Item :=
  match get_current_user sign fake_users_db ["items:write"] token now with
  | inr e => (inr e, fake_items_db)
  | inl current_user =>
      let new_item :=
        {| item_id := Z.of_nat (length fake_items_db) + 1;
           item_name := name;
           item_price := price;
           item_owner := username current_user |} in
      (inl {| created_message := "아이템이 생성되었습니다";
              created_item := new_item;
              created_by := username current_user |},
       fake_items_db ++ [new_item])
  end.

(** [user_dashboard]: [Depends(role_required([Role.ADMIN, Role.USER]))] *)
Definition user_dashboard (fake_users_db : gmap string UserInDB)
    (fake_items_db : list Item) (token : JWT) (now : Z)
  : Dashboard + Failure :=
  match role_required sign [ADMIN; USER] fake_users_db token now with
  | inr e => inr e
  | inl current_user =>
      let user_items :=
        filter (fun item => item_owner item = username current_user)
          fake_items_db in
      inl {| dashboard_user := username current_user;
             dashboard_role := role current_user;
             my_items := user_items;
             my_items_count := Z.of_nat (length user_items) |}
  end.

(** [admin_delete_user]: [Depends(role_required([Role.ADMIN]))]; the
    result pairs the answer with [fake_users_db] after the call. *)
Definition admin_delete_user (fake_users_db : gmap string UserInDB)
    (token : JWT) (now : Z) (username_to_delete : string)
  : (UserDeleted + Failure) * gmap string UserInDB :=
  match role_required sign [ADMIN] fake_users_db token now with
  | inr e => (inr e, fake_users_db)
  | inl current_user =>
      if bool_decide (username_to_delete = username current_user) then
        (inr (Http {| status_code := HTTP_400_BAD_REQUEST;
                      detail := "자기 자신은 삭제할 수 없습니다";
                      headers := None |}),
         fake_users_db)
      else
        match fake_users_db !! username_to_delete with
        | None =>
            (inr (Http {| status_code := HTTP_404_NOT_FOUND;
                          detail := "사용자 '" +:+ username_to_delete +:+
                                    "'을(를) 찾을 수 없습니다";
                          headers := None |}),
             fake_users_db)
        | Some deleted =>
            (inl {| deleted_message :=
                      "사용자 '" +:+ username_to_delete +:+
                      "'이(가) 삭제되었습니다";
                    deleted_user := full_name deleted |},
             delete username_to_delete fake_users_db)
        end
  end.

End Endpoints.

End Ch15.

(* ===================================================================== *)
(** * Chapter 14: JWT authentication                                      *)
(* ===================================================================== *)

Module Ch14.
Import Jose Fastapi.

Definition SECRET_KEY : string :=
  "e3b0c44298fc1c149afbf4c8996fb92427ae41e4649b934ca495991b7852b855".
Definition ALGORITHM : string := "HS256".

(** [class UserInDB(User)] of [schemas.py] *)
Record UserInDB : Type := mkUserInDB {
  username : string;
  email : option string;
  disabled : bool;
  hashed_password : string
}.

(** [get_user] *)
Definition get_user (db : gmap string UserInDB) (username : string)
  : option UserInDB :=
  db !! username.

Section Deps.
Context {ucd : Py.Unicode}.

Variable sign : string -> string -> gmap string ClaimVal -> string.

(** [create_access_token] *)
Definition create_access_token (data : gmap string ClaimVal)
    (expires_delta : option Z) (now : Z) : JWT :=
  let expire :=
    match expires_delta with
    | Some delta =>
        if delta =? 0 then now + timedelta_minutes 15 else now + delta
    | None => now + timedelta_minutes 15
    end in
  let to_encode := <["exp" := CDatetime expire]> data in
  encode sign to_encode SECRET_KEY ALGORITHM.

(** [credentials_exception] of [get_current_user] *)
Definition credentials_exception : HTTPException :=
  {| status_code := HTTP_401_UNAUTHORIZED;
     detail := "토큰 인증에 실패했습니다. 유효한 토큰을 제공해 주세요.";
     headers := Some [("WWW-Authenticate", "Bearer")] |}.

(** The [try] block of [get_current_user]: the [username] of
    [TokenData]; every [JWTError] becomes [credentials_exception], any
    other exception of [jwt.decode] passes through. *)
Definition verify_token (token : JWT) (now : Z) : string + Failure :=
  match decode sign token SECRET_KEY [ALGORITHM] now with
  | inr e =>
      if is_JWTError e then inr credentials_exception
      else inr (Uncaught (class_name e))
  | inl payload =>
      match payload !! "sub" with
      | Some (CStr username) => inl username
      | _ => inr credentials_exception
      end
  end.

(** [get_current_user] *)
Definition get_current_user (fake_users_db : gmap string UserInDB)
    (token : JWT) (now : Z) : UserInDB + Failure :=
  match verify_token token now with
  | inr e => inr e
  | inl username =>
      match get_user fake_users_db username with
      | None => inr credentials_exception
      | Some user => inl user
      end
  end.

(** [get_current_active_user] *)
Definition get_current_active_user (fake_users_db : gmap string UserInDB)
    (token : JWT) (now : Z) : UserInDB + Failure :=
  match get_current_user fake_users_db token now with
  | inr e => inr e
  | inl current_user =>
      if disabled current_user then
        inr {| status_code := HTTP_400_BAD_REQUEST;
               detail := "비활성화된 계정입니다. 관리자에게 문의해 주세요.";
               headers := None |}
      else inl current_user
  end.

End Deps.

(** ** Accounts: [main.py] *)

(** [class UserCreate(BaseModel)], as the handler receives it (the
    framework has checked the lengths). *)
Record UserCreate : Type := mkUserCreate {
  new_username : string;
  new_password : string
}.

(** [class Token(BaseModel)] *)
Record Token : Type := mkToken {
  access_token : JWT;
  token_type : string
}.

(** The answer of [register]. *)
Record Registered : Type := mkRegistered {
  registered_message : string;
  registered_username : string
}.

Definition ACCESS_TOKEN_EXPIRE_MINUTES : Z := 30.

Section Accounts.
Context {ucd : Py.Unicode}.

(** The signature function of [jose], and [pwd_context.verify] and
    [pwd_context.hash] of [passlib]. *)
Variable sign : string -> string -> gmap string ClaimVal -> string.
Variable pwd_verify : string -> string -> bool.
Variable pwd_hash : string -> string.

(** [verify_password] *)
Definition verify_password (plain_password hashed_password : string) : bool :=
  pwd_verify plain_password hashed_password.

(** [get_password_hash] *)
Definition get_password_hash (password : string) : string :=
  pwd_hash password.

(** [authenticate_user] *)
Definition authenticate_user (db : gmap string UserInDB)
    (username password : string) : option UserInDB :=
  match get_user db username with
  | None => None
  | Some user =>
      if negb (verify_password password (hashed_password user)) then None
      else Some user
  end.

(** [register]; the result pairs the answer with [fake_users_db] after
    the call. *)
Definition register (fake_users_db : gmap string UserInDB)
    (user_data : UserCreate)
  : (Registered + HTTPException) * gmap string UserInDB :=
  match fake_users_db !! new_username user_data with
  | Some _ =>
      (inr {| status_code := HTTP_400_BAD_REQUEST;
              detail := "이미 등록된 사용자명입니다.";
              headers := None |},
       fake_users_db)
  | None =>
      let hashed_password := get_password_hash (new_password user_data) in
      (inl {| registered_message := "회원가입이 완료되었습니다.";
              registered_username := new_username user_data |},
       <[new_username user_data :=
           {| username := new_username user_data;
              email := None;
              disabled := false;
              hashed_password := hashed_password |}]> fake_users_db)
  end.

(** [login_for_access_token]; [username] and [password] are the fields
    of the form. *)
Definition login_for_access_token (fake_users_db : gmap string UserInDB)
    (username password : string) (now : Z) : Token + HTTPException :=
  match authenticate_user fake_users_db username password with
  | None =>
      inr {| status_code := HTTP_401_UNAUTHORIZED;
             detail := "사용자명 또는 비밀번호가 올바르지 않습니다.";
             headers := Some [("WWW-Authenticate", "Bearer")] |}
  | Some user =>
      let access_token_expires :=
        timedelta_minutes ACCESS_TOKEN_EXPIRE_MINUTES in
      let access_token :=
        create_access_token sign
          {["sub" := CStr (Ch14.username user)]}
          (Some access_token_expires) now in
      inl {| access_token := access_token; token_type := "bearer" |}
  end.

(** [read_users_me]: [Depends(get_current_active_user)] *)
Definition read_users_me (fake_users_db : gmap string UserInDB)
    (token : JWT) (now : Z) : UserInDB + Failure :=
  get_current_active_user sign fake_users_db token now.

End Accounts.

End Ch14.

(* ===================================================================== *)
(** * Sample programs and data                                            *)
(* ===================================================================== *)

Module Samples.
Import Py Ch22 Jose Fastapi.

(** Tables that stand for the Unicode database: every character above
    U+007F counts as printable, and [int] reads the decimal digits of a
    numeral after an optional minus sign. The sample texts that go
    through [repr] are ASCII, and no sample passes a text to [int]. *)
#[export] Instance sample_unicode : Unicode :=
  {| isprintable := fun _ => true;
     int_of_str := fun s => Z.of_int <$> NilZero.int_of_string s |}.

(** Two functions named [load], defined in two modules. *)
Definition load_users : PyFunc unit :=
  mkFunc "users" "load" (fun _ _ e => (Return (PyStr "alice"), e)).


(** [async def ping(): return None] *)
Definition ping : PyFunc unit :=
  mkFunc "jobs" "ping" (fun _ _ e => (Return PyNone, e)).

(** [async def fetch(n)] raises [ValueError] on a negative [n] and
    returns [n * n] otherwise; the state counts its runs. *)
Definition fetch : PyFunc Z :=
  mkFunc "jobs" "fetch"
    (fun args _ runs =>
       match args with
       | [PyInt n] =>
           if n <? 0 then (Raise (mkExn "ValueError" "negative"), runs + 1)
           else (Return (PyInt (n * n)), runs + 1)
       | _ => (Raise (mkExn "TypeError" "fetch(n)"), runs + 1)
       end).

Definition empty_world {E} (e : E) : World E :=
  {| cache := __init__; env := e; invoked := [] |}.

(** A world whose cache holds, under the key of [fetch(-1)], an entry
    stored at time 0 for 10 ticks. *)
Definition stale_world : World Z :=
  {| cache := set 0 (cache_key fetch [PyInt (-1)] []) (PyInt 7) 10 __init__;
     env := 0; invoked := [] |}.

(** A keyed digest that stands for the signature function. *)
Fixpoint claim_text (v : ClaimVal) : string :=
  match v with
  | CNull => "null"
  | CBool true => "true"
  | CBool false => "false"
  | CInt z => repr_int z
  | CFloat (Finite mantissa exponent) =>
      repr_int mantissa +:+ "p" +:+ repr_int exponent
  | CFloat (Infinity negative) => if negative then "-Infinity" else "Infinity"
  | CFloat NaN => "NaN"
  | CStr s => repr_str s
  | CList items => repr_list (map claim_text items)
  | CObject fields =>
      "{" +:+
      join ", " (map (fun '(k, v) => repr_str k +:+ ": " +:+ claim_text v)
                   fields)
      +:+ "}"
  | CDatetime micros => repr_int micros
  end.

Definition sample_sign (key alg : string) (claims : gmap string ClaimVal)
  : string :=
  Hashlib.md5_hexdigest
    (Hashlib.encode
       (key +:+ alg +:+
        join "," (map (fun kv => kv.1 +:+ ":" +:+ claim_text kv.2)
                    (map_to_list claims)))).

(** A password check that stands for [pwd_context.verify]. *)
Definition sample_pwd_verify (plain hashed : string) : bool :=
  String.eqb ("hashed:" +:+ plain) hashed.

Definition alice : Ch15.UserInDB :=
  {| Ch15.username := "alice"; Ch15.full_name := "Alice";
     Ch15.email := "alice@example.com"; Ch15.role := Ch15.VIEWER;
     Ch15.hashed_password := "hashed:wonderland";
     Ch15.disabled := false; Ch15.scopes := ["items:read"] |}.

Definition bob : Ch15.UserInDB :=
  {| Ch15.username := "bob"; Ch15.full_name := "Bob";
     Ch15.email := "bob@example.com"; Ch15.role := Ch15.USER;
     Ch15.hashed_password := "hashed:builder";
     Ch15.disabled := true; Ch15.scopes := ["items:read"; "items:write"] |}.

Definition users15 : gmap string Ch15.UserInDB :=
  <["bob" := bob]> {["alice" := alice]}.

Definition carol : Ch14.UserInDB :=
  {| Ch14.username := "carol"; Ch14.email := None;
     Ch14.disabled := true; Ch14.hashed_password := "hashed:xyz" |}.

Definition users14 : gmap string Ch14.UserInDB := {["carol" := carol]}.

(** The claims [{"sub": subject, "scopes": scopes}]. *)
Definition claims_of (subject : string) (scopes : list string)
  : gmap string ClaimVal :=
  <["scopes" := CList (CStr <$> scopes)]> {["sub" := CStr subject]}.

(** The claims that a token issued to [alice] at time 0 for 30 minutes
    carries. *)
Definition alice_claims : gmap string ClaimVal :=
  <["exp" := CInt 1800]> (claims_of "alice" ["items:read"]).

(** A correctly signed token whose expiry second has long passed and
    whose [iat] is [null]. *)
Definition null_iat_claims : gmap string ClaimVal :=
  <["iat" := CNull]> (<["exp" := CInt 1]> (claims_of "alice" ["items:read"])).

Definition null_iat_token : JWT :=
  Compact "HS256" null_iat_claims
    (sample_sign Ch15.SECRET_KEY "HS256" null_iat_claims).

(** Tokens issued at time 0 for 30 minutes. *)
Definition alice_token : JWT :=
  Ch15.create_access_token sample_sign (claims_of "alice" ["items:read"])
    (Some (timedelta_minutes 30)) 0.

Definition bob_token : JWT :=
  Ch15.create_access_token sample_sign (claims_of "bob" ["items:read"])
    (Some (timedelta_minutes 30)) 0.

Definition carol_token : JWT :=
  Ch14.create_access_token sample_sign {["sub" := CStr "carol"]}
    (Some (timedelta_minutes 30)) 0.

(** The claims of [alice_token] under a signature made up by the
    sender. *)
Definition tampered_token : JWT :=
  match alice_token with
  | Compact alg claims _ => Compact alg claims "forged"
  | Garbage text => Garbage text
  end.

Definition alice_login : Ch15.OAuth2PasswordRequestForm :=
  {| Ch15.form_username := "alice"; Ch15.form_password := "wonderland";
     Ch15.form_scopes := ["items:read"; "items:write"] |}.

(** A hash that stands for [pwd_context.hash], matching
    [sample_pwd_verify]. *)
Definition sample_pwd_hash (plain : string) : string := "hashed:" +:+ plain.

(** An administrator, and a store that holds it beside [alice] and
    [bob]. *)
Definition root : Ch15.UserInDB :=
  {| Ch15.username := "root"; Ch15.full_name := "Root";
     Ch15.email := "root@example.com"; Ch15.role := Ch15.ADMIN;
     Ch15.hashed_password := "hashed:toor";
     Ch15.disabled := false;
     Ch15.scopes := ["items:read"; "items:write"; "admin"] |}.

Definition users15_admin : gmap string Ch15.UserInDB :=
  <["root" := root]> users15.

Definition root_token : JWT :=
  Ch15.create_access_token sample_sign (claims_of "root" ["admin"])
    (Some (timedelta_minutes 30)) 0.

(** A token of [root] with the scope [items:write], and two items. *)
Definition root_write_token : JWT :=
  Ch15.create_access_token sample_sign (claims_of "root" ["items:write"])
    (Some (timedelta_minutes 30)) 0.

Definition two_items : list Ch15.Item :=
  [ {| Ch15.item_id := 1; Ch15.item_name := "laptop";
       Ch15.item_price := 1200000; Ch15.item_owner := "root" |};
    {| Ch15.item_id := 2; Ch15.item_name := "mouse";
       Ch15.item_price := 80000; Ch15.item_owner := "alice" |} ].

(** [alice] after her scopes were taken away. *)
Definition alice_revoked : Ch15.UserInDB :=
  {| Ch15.username := "alice"; Ch15.full_name := "Alice";
     Ch15.email := "alice@example.com"; Ch15.role := Ch15.VIEWER;
     Ch15.hashed_password := "hashed:wonderland";
     Ch15.disabled := false; Ch15.scopes := [] |}.

Definition users15_revoked : gmap string Ch15.UserInDB :=
  <["alice" := alice_revoked]> users15.

(** Tokens of a subject that no store holds. *)
Definition dave_token : JWT :=
  Ch15.create_access_token sample_sign (claims_of "dave" ["items:read"])
    (Some (timedelta_minutes 30)) 0.

Definition dave_token14 : JWT :=
  Ch14.create_access_token sample_sign {["sub" := CStr "dave"]}
    (Some (timedelta_minutes 30)) 0.

End Samples.

(* ===================================================================== *)
(** * Properties of the cache store                                       *)
(* ===================================================================== *)

Section CacheStore.
Import Py Ch22.

(** C1. The TTL contract of [get]: when the key has an entry and the
    current time is strictly before its [expires_at], [get] returns the
    stored value, counts a hit and leaves the entries alone; in every
    other case it returns [None] (absent), counts a miss, and the entry
    of the key, if there was one (then expired), is gone. Hence no value
    is returned from an entry whose [expires_at] has passed. *)
Theorem get_ttl_contract (now : Z) (key : string) (self : InMemoryCache) :
  match _store self !! key with
  | Some (value, expires_at) =>
      if decide (now < expires_at) then
        get now key self =
          (value, {| _store := _store self;
                     _hits := _hits self + 1;
                     _misses := _misses self |})
      else
        fst (get now key self) = PyNone
        /\ _misses (snd (get now key self)) = _misses self + 1
        /\ _hits (snd (get now key self)) = _hits self
        /\ _store (snd (get now key self)) = delete key (_store self)
        /\ _store (snd (get now key self)) !! key = None
  | None =>
      get now key self =
        (PyNone, {| _store := _store self;
                    _hits := _hits self;
                    _misses := _misses self + 1 |})
  end.
Proof.
  unfold get.
  destruct (_store self !! key) as [[value expires_at]|] eqn:Hlk; [|done].
  case_decide as Hlt.
  - apply Z.ltb_lt in Hlt. by rewrite Hlt.
  - apply Z.ltb_nlt in Hlt. rewrite Hlt. cbn.
    repeat split; try done. apply lookup_delete_eq.
Qed.

End CacheStore.

(* ===================================================================== *)
(** * Properties of the [cached] decorator                                *)
(* ===================================================================== *)

Section KeyDerivation.
Import Py Ch22.
Context {ucd : Unicode}.




#[local] Instance item_le_trans : Transitive item_le.
Proof. intros x y z. unfold item_le. apply transitivity. Qed.

#[local] Instance item_le_total : Total item_le.
Proof. intros x y. unfold item_le. apply total, _. Qed.















End KeyDerivation.

Section KeyDerivationSamples.
Import Py Ch22 Samples.



End KeyDerivationSamples.

Section Memoization.
Import Py Ch22.
Context {ucd : Unicode} {E : Type}.

(** A lookup right after [set], before the entry expires, is a hit. *)
Lemma get_after_set (now t_set ttl : Z) key value c :
  now < t_set + ttl ->
  get now key (set t_set key value ttl c)
    = (value, {| _store := <[key := (value, t_set + ttl)]> (_store c);
                 _hits := _hits c + 1;
                 _misses := _misses c |}).
Proof.
  intros Hlt. unfold get, set. cbn. rewrite lookup_insert_eq.
  apply Z.ltb_lt in Hlt. by rewrite Hlt.
Qed.

(** What a call does when the lookup gives [None] and the function
    returns. *)
Lemma cached_miss_return ttl (f : PyFunc E) args kw t_get t_set w r e1 :
  (get t_get (cache_key f args kw) (cache w)).1 = PyNone ->
  call f args kw (env w) = (Return r, e1) ->
  cached ttl f args kw t_get t_set w
    = (Return r,
       {| cache := set t_set (cache_key f args kw) r ttl
                     (get t_get (cache_key f args kw) (cache w)).2;
          env := e1;
          invoked := invoked w ++ [this_call f args kw] |}).
Proof.
  intros Hget Hcall. unfold cached.
  destruct (get t_get (cache_key f args kw) (cache w)) as [v c1].
  cbn in Hget. subst v. cbn. by rewrite Hcall.
Qed.

(** When the lookup gives a value, the function is not called. *)
Lemma cached_hit ttl (f : PyFunc E) args kw t_get t_set w v :
  (get t_get (cache_key f args kw) (cache w)).1 = v ->
  is_not_None v = true ->
  cached ttl f args kw t_get t_set w
    = (Return v,
       {| cache := (get t_get (cache_key f args kw) (cache w)).2;
          env := env w;
          invoked := invoked w |}).
Proof.
  intros Hget Hv. unfold cached.
  destruct (get t_get (cache_key f args kw) (cache w)) as [v' c1].
  cbn in Hget. subst v'. by rewrite Hv.
Qed.

(** C5, as the code has it. Two calls with the same arguments, one after
    the other: when the first finds nothing in the cache, the wrapped
    function returns a value that is not [None], and the second looks the
    key up strictly before the expiry of the entry the first one stored
    (its [set] time plus [ttl]), the wrapped function is called exactly
    once: the second call returns the stored result and calls nothing. *)
Theorem cached_twice_invokes_once ttl (f : PyFunc E) args kw
    (t1 t1' t2 t2' : Z) (w : World E) (r : PyVal) (e1 : E) :
  (get t1 (cache_key f args kw) (cache w)).1 = PyNone ->
  call f args kw (env w) = (Return r, e1) ->
  is_not_None r = true ->
  t2 < t1' + ttl ->
  let first := cached ttl f args kw t1 t1' w in
  let second := cached ttl f args kw t2 t2' first.2 in
  first.1 = Return r
  /\ second.1 = Return r
  /\ invoked second.2 = invoked w ++ [this_call f args kw]
  /\ env second.2 = e1.
Proof.
  intros Hmiss Hcall Hr Hlt first second. subst first second.
  rewrite (cached_miss_return ttl f args kw t1 t1' w r e1 Hmiss Hcall). cbn.
  rewrite (cached_hit ttl f args kw t2 t2' _ r); cbn;
    [done|by rewrite get_after_set|done].
Qed.

(** C6, as the code has it. When the lookup gives [None] and the wrapped
    function raises, the exception reaches the caller as it is and
    [cache.set] is not called: the entries are those that the lookup
    left, that is the entries before the call, less the entry of the key
    when it had expired. *)
Theorem cached_raise_stores_nothing ttl (f : PyFunc E) args kw
    (t_get t_set : Z) (w : World E) (e : PyExn) (e1 : E) :
  (get t_get (cache_key f args kw) (cache w)).1 = PyNone ->
  call f args kw (env w) = (Raise e, e1) ->
  let key := cache_key f args kw in
  let after := cached ttl f args kw t_get t_set w in
  after.1 = Raise e
  /\ cache after.2 = (get t_get key (cache w)).2
  /\ _store (cache after.2)
     = match _store (cache w) !! key with
       | Some (_, expires_at) =>
           if t_get <? expires_at then _store (cache w)
           else delete key (_store (cache w))
       | None => _store (cache w)
       end
  /\ _store (cache after.2) ⊆ _store (cache w).
Proof.
  intros Hmiss Hcall key after. subst key after. unfold cached.
  destruct (get t_get (cache_key f args kw) (cache w)) as [v c1] eqn:Hget.
  cbn in Hmiss. subst v. cbn. rewrite Hcall. cbn.
  unfold get in Hget.
  destruct (_store (cache w) !! cache_key f args kw) as [[v x]|];
    [destruct (t_get <? x)|]; simplify_eq; cbn; repeat split; try done.
  apply delete_subseteq.
Qed.

(** C10, as the code has it. [get] gives [None] for an absent key, for
    an expired entry and for a live entry that holds [None]. So a
    function that returns [None] is called again by a second call within
    the TTL; that second lookup finds the live entry and is counted by
    the cache as a hit, not as a miss. *)
Theorem cached_none_result_is_recomputed ttl (f : PyFunc E) args kw
    (t1 t1' t2 t2' : Z) (w : World E) (e1 e2 : E) :
  (get t1 (cache_key f args kw) (cache w)).1 = PyNone ->
  call f args kw (env w) = (Return PyNone, e1) ->
  call f args kw e1 = (Return PyNone, e2) ->
  t2 < t1' + ttl ->
  let key := cache_key f args kw in
  let first := cached ttl f args kw t1 t1' w in
  let second := cached ttl f args kw t2 t2' first.2 in
  (forall now c,
     (get now key c).1 = PyNone <->
     match _store c !! key with
     | None => True
     | Some (v, expires_at) => expires_at <= now \/ v = PyNone
     end)
  /\ first.1 = Return PyNone /\ second.1 = Return PyNone
  /\ invoked second.2
     = invoked w ++ [this_call f args kw; this_call f args kw]
  /\ _hits (cache second.2) = _hits (cache first.2) + 1
  /\ _misses (cache second.2) = _misses (cache first.2).
Proof.
  intros Hmiss Hcall1 Hcall2 Hlt key first second. subst key first second.
  split.
  { intros now c. unfold get.
    destruct (_store c !! cache_key f args kw) as [[v x]|]; [|done].
    destruct (Z.ltb_spec now x); cbn; [|by intuition].
    split; [by right|]. intros [?|?]; [lia|done]. }
  rewrite (cached_miss_return ttl f args kw t1 t1' w PyNone e1 Hmiss Hcall1).
  cbn.
  rewrite (cached_miss_return ttl f args kw t2 t2' _ PyNone e2); cbn;
    [|by rewrite get_after_set|done].
  rewrite get_after_set by done. cbn.
  rewrite <- app_assoc. done.
Qed.

End Memoization.

Section MemoizationSamples.
Import Py Ch22 Samples.

(** C5, as the claim states it, fails for a function that returns
    [None]: two calls with the same arguments, the second within the TTL
    of the first, call it twice. *)
Lemma cached_none_invoked_twice :
  let first := cached 60 ping [] [] 0 0 (empty_world tt) in
  let second := cached 60 ping [] [] 1 1 first.2 in
  1 < 0 + 60
  /\ first.1 = Return PyNone /\ second.1 = Return PyNone
  /\ invoked second.2 = [this_call ping [] []; this_call ping [] []].
Proof. vm_compute. repeat split. Qed.

Lemma cached_twice_invokes_once_witness :
  let first := cached 30 fetch [PyInt 3] [] 0 1 (empty_world 0) in
  let second := cached 30 fetch [PyInt 3] [] 5 6 first.2 in
  first.1 = Return (PyInt 9)
  /\ second.1 = Return (PyInt 9)
  /\ invoked second.2 = [] ++ [this_call fetch [PyInt 3] []]
  /\ env second.2 = 1.
Proof.
  apply (cached_twice_invokes_once 30 fetch [PyInt 3] [] 0 1 5 6
           (empty_world 0) (PyInt 9) 1);
    [vm_compute; reflexivity | reflexivity | reflexivity | lia].
Defined.

Lemma stale_entry_before :
  _store (cache stale_world) !! cache_key fetch [PyInt (-1)] []
    = Some (PyInt 7, 10).
Proof. vm_compute. repeat split. Qed.

Lemma stale_entry_after :
  _store (cache (cached 30 fetch [PyInt (-1)] [] 20 21 stale_world).2)
    !! cache_key fetch [PyInt (-1)] [] = None.
Proof. vm_compute. repeat split. Qed.

(** C6, as the claim states it, fails when the key has an expired entry:
    the lookup is a miss, the function raises, and the entries have
    changed, the expired one having been removed. *)
Lemma cached_raise_evicts_expired_entry :
  let key := cache_key fetch [PyInt (-1)] [] in
  let after := cached 30 fetch [PyInt (-1)] [] 20 21 stale_world in
  (get 20 key (cache stale_world)).1 = PyNone
  /\ after.1 = Raise (mkExn "ValueError" "negative")
  /\ _store (cache stale_world) !! key = Some (PyInt 7, 10)
  /\ _store (cache after.2) !! key = None
  /\ _store (cache after.2) <> _store (cache stale_world).
Proof.
  intros key after. subst key after.
  split; [vm_compute; reflexivity|]. split; [vm_compute; reflexivity|].
  split; [exact stale_entry_before|]. split; [exact stale_entry_after|].
  intros Heq. pose proof stale_entry_after as Hafter.
  rewrite Heq, stale_entry_before in Hafter. discriminate.
Qed.

Lemma cached_raise_stores_nothing_witness :
  let key := cache_key fetch [PyInt (-1)] [] in
  let after := cached 30 fetch [PyInt (-1)] [] 20 21 stale_world in
  after.1 = Raise (mkExn "ValueError" "negative")
  /\ cache after.2 = (get 20 key (cache stale_world)).2
  /\ _store (cache after.2)
     = match _store (cache stale_world) !! key with
       | Some (_, expires_at) =>
           if 20 <? expires_at then _store (cache stale_world)
           else delete key (_store (cache stale_world))
       | None => _store (cache stale_world)
       end
  /\ _store (cache after.2) ⊆ _store (cache stale_world).
Proof.
  apply (cached_raise_stores_nothing 30 fetch [PyInt (-1)] [] 20 21
           stale_world (mkExn "ValueError" "negative") 1);
    [vm_compute; reflexivity | reflexivity].
Defined.

(** C10, as the claim states it, fails in its last part: the second call
    of a function that returns [None], within the TTL, leaves the miss
    counter as it was and adds to the hit counter. *)
Lemma cached_none_second_lookup_counts_hit :
  let first := cached 60 ping [] [] 0 0 (empty_world tt) in
  let second := cached 60 ping [] [] 1 1 first.2 in
  invoked second.2 = [this_call ping [] []; this_call ping [] []]
  /\ _misses (cache first.2) = 1 /\ _misses (cache second.2) = 1
  /\ _hits (cache first.2) = 0 /\ _hits (cache second.2) = 1.
Proof. vm_compute. repeat split. Qed.

Lemma cached_none_result_is_recomputed_witness :
  let key := cache_key ping [] [] in
  let first := cached 60 ping [] [] 0 0 (empty_world tt) in
  let second := cached 60 ping [] [] 1 1 first.2 in
  (forall now c,
     (get now key c).1 = PyNone <->
     match _store c !! key with
     | None => True
     | Some (v, expires_at) => expires_at <= now \/ v = PyNone
     end)
  /\ first.1 = Return PyNone /\ second.1 = Return PyNone
  /\ invoked second.2
     = [] ++ [this_call ping [] []; this_call ping [] []]
  /\ _hits (cache second.2) = _hits (cache first.2) + 1
  /\ _misses (cache second.2) = _misses (cache first.2).
Proof.
  apply (cached_none_result_is_recomputed 60 ping [] [] 0 0 1 1
           (empty_world tt) tt tt);
    [vm_compute; reflexivity | reflexivity | reflexivity | lia].
Defined.

End MemoizationSamples.

(* ===================================================================== *)
(** * Properties of the token codec                                       *)
(* ===================================================================== *)

Section TokenCodec.
Import Jose Fastapi.
Context {ucd : Py.Unicode}.
Variable sign : string -> string -> gmap string ClaimVal -> string.

(** The claims that [jwt.encode] signs keep every claim but the time
    claims, which become whole seconds. *)
Lemma encoded_claims_exp (data : gmap string ClaimVal) (expire : Z) :
  alter int_date "nbf" (alter int_date "iat" (alter int_date "exp"
    (<["exp" := CDatetime expire]> data))) !! "exp"
  = Some (CInt (timegm expire)).
Proof.
  rewrite lookup_alter_ne by done. rewrite lookup_alter_ne by done.
  rewrite lookup_alter_eq, lookup_insert_eq. done.
Qed.

Lemma encoded_claims_other (data : gmap string ClaimVal) (expire : Z)
    (k : string) :
  k <> "exp" -> k <> "iat" -> k <> "nbf" ->
  alter int_date "nbf" (alter int_date "iat" (alter int_date "exp"
    (<["exp" := CDatetime expire]> data))) !! k
  = data !! k.
Proof.
  intros H1 H2 H3.
  rewrite !lookup_alter_ne by done. by rewrite lookup_insert_ne.
Qed.

Lemma mapM_as_str (l : list string) : mapM Ch15.as_str (CStr <$> l) = Some l.
Proof. induction l as [|x l IH]; [done|]. cbn. by rewrite IH. Qed.

Lemma timegm_mono (a b : Z) : a <= b -> timegm a <= timegm b.
Proof. intros H. unfold timegm. apply Z.div_le_mono; lia. Qed.

Lemma encoded_claims_absent (data : gmap string ClaimVal) (expire : Z)
    (k : string) :
  k <> "exp" -> data !! k = None ->
  alter int_date "nbf" (alter int_date "iat" (alter int_date "exp"
    (<["exp" := CDatetime expire]> data))) !! k
  = None.
Proof.
  intros Hk Hdata.
  assert (Hins : <["exp" := CDatetime expire]> data !! k = None)
    by (by rewrite lookup_insert_ne).
  destruct (decide (k = "nbf")) as [->|Hnbf].
  { rewrite lookup_alter_eq, !lookup_alter_ne by done. by rewrite Hins. }
  rewrite lookup_alter_ne by done.
  destruct (decide (k = "iat")) as [->|Hiat].
  { rewrite lookup_alter_eq, !lookup_alter_ne by done. by rewrite Hins. }
  rewrite !lookup_alter_ne by done. exact Hins.
Qed.

(** The claims that [create_access_token] signs pass the validation as
    long as the expiry second has not passed, when the data hold no
    registered claim but a textual [sub]. *)
Lemma encoded_claims_valid (data : gmap string ClaimVal) (expire now : Z)
    (subject : string) :
  data !! "iat" = None -> data !! "nbf" = None -> data !! "aud" = None ->
  data !! "jti" = None -> data !! "at_hash" = None ->
  data !! "sub" = Some (CStr subject) ->
  timegm now <= timegm expire ->
  validate_claims
    (alter int_date "nbf" (alter int_date "iat" (alter int_date "exp"
       (<["exp" := CDatetime expire]> data)))) now
  = None.
Proof.
  intros Hiat Hnbf Haud Hjti Hat Hsub Hle.
  unfold validate_claims, int_claim, text_claim, unexpected_claim.
  rewrite (encoded_claims_absent _ _ "iat"), (encoded_claims_absent _ _ "nbf"),
    (encoded_claims_absent _ _ "aud"), (encoded_claims_absent _ _ "jti"),
    (encoded_claims_absent _ _ "at_hash") by done.
  rewrite encoded_claims_exp, (encoded_claims_other _ _ "sub") by done.
  rewrite Hsub. cbn.
  apply Z.ltb_ge in Hle. by rewrite Hle.
Qed.

(** What [jwt.decode] answers for a three-segment token. *)
Lemma decode_bad_signature alg claims sig key algs now :
  sig <> sign key alg claims ->
  decode sign (Compact alg claims sig) key algs now = inr JWTError.
Proof.
  intros Hsig. cbn. destruct (bool_decide (alg ∈ algs)); [|done]. cbn.
  apply String.eqb_neq in Hsig. by rewrite Hsig.
Qed.

Lemma decode_valid alg claims key algs now :
  alg ∈ algs -> validate_claims claims now = None ->
  decode sign (Compact alg claims (sign key alg claims)) key algs now
  = inl claims.
Proof.
  intros Halg Hvalid. unfold decode.
  rewrite bool_decide_eq_true_2 by done. rewrite String.eqb_refl.
  cbn [negb]. by rewrite Hvalid.
Qed.

Lemma first_error_cons_None (c : option Raised) rest :
  first_error (c :: rest) = None -> c = None /\ first_error rest = None.
Proof. by destruct c. Qed.

(** An accepted token is the token itself, has the expected signature,
    and has not expired. *)
Lemma decode_accepts token key algs now accepted :
  decode sign token key algs now = inl accepted ->
  exists alg,
    token = Compact alg accepted (sign key alg accepted)
    /\ alg ∈ algs
    /\ forall e, accepted !! "exp" = Some (CInt e) -> timegm now <= e.
Proof.
  destruct token as [text|alg claims sig]; [done|]. unfold decode.
  destruct (bool_decide (alg ∈ algs)) eqn:Halg; [|done].
  destruct (String.eqb sig (sign key alg claims)) eqn:Hsig; [|done].
  cbn [negb].
  destruct (validate_claims claims now) eqn:Hvalid; [done|].
  intros [= <-]. exists alg.
  apply String.eqb_eq in Hsig as ->. apply bool_decide_eq_true_1 in Halg.
  split; [done|]. split; [done|]. intros e He.
  unfold validate_claims in Hvalid.
  apply first_error_cons_None in Hvalid as [_ Hvalid].
  apply first_error_cons_None in Hvalid as [_ Hvalid].
  apply first_error_cons_None in Hvalid as [Hexp _].
  unfold int_claim in Hexp. rewrite He in Hexp. cbn in Hexp.
  destruct (Z.ltb_spec e (timegm now)); [done|lia].
Qed.

(** What [jwt.decode] answers for a token that carries the signature of
    its claims: what the validation of the claims gives. *)
Lemma decode_signed alg claims key algs now :
  alg ∈ algs ->
  decode sign (Compact alg claims (sign key alg claims)) key algs now
  = match validate_claims claims now with
    | Some e => inr e
    | None => inl claims
    end.
Proof.
  intros Halg. unfold decode.
  rewrite bool_decide_eq_true_2 by done. by rewrite String.eqb_refl.
Qed.

(** Every refusal of [jwt.decode] for a reason other than a time claim
    is a [JWTError]. *)
Lemma text_claim_JWTError claims name e :
  text_claim claims name = Some e -> is_JWTError e = true.
Proof.
  unfold text_claim. destruct (claims !! name) as [[]|]; by intros [= <-].
Qed.

Lemma unexpected_claim_JWTError claims name e :
  unexpected_claim claims name = Some e -> is_JWTError e = true.
Proof.
  unfold unexpected_claim. destruct (claims !! name); by intros [= <-].
Qed.

(** A time claim on which [int] raises nothing but [ValueError] is
    refused, if at all, with a [JWTError]. *)
Lemma int_claim_JWTError claims name check e :
  (forall v err, claims !! name = Some v -> py_int v = inr err ->
                 err = ValueError) ->
  (forall z e', check z = Some e' -> is_JWTError e' = true) ->
  int_claim claims name check = Some e -> is_JWTError e = true.
Proof.
  intros Hint Hcheck. unfold int_claim.
  destruct (claims !! name) as [v|] eqn:Hv; [|done].
  destruct (py_int v) as [z|err] eqn:Hz; [apply Hcheck|].
  rewrite (Hint v err eq_refl Hz). by intros [= <-].
Qed.

(** A token whose expiry second has passed is refused with a
    [JWTError], when [int] raises nothing but [ValueError] on [iat] and
    [nbf]. *)
Lemma validate_claims_expired claims now v e :
  (forall v err, claims !! "iat" = Some v -> py_int v = inr err ->
                 err = ValueError) ->
  (forall v err, claims !! "nbf" = Some v -> py_int v = inr err ->
                 err = ValueError) ->
  claims !! "exp" = Some v -> py_int v = inl e -> e < timegm now ->
  exists err, validate_claims claims now = Some err /\ is_JWTError err = true.
Proof.
  intros Hiat Hnbf Hexp Hint Hlt. unfold validate_claims.
  destruct (int_claim claims "iat" _) as [e1|] eqn:H1.
  { exists e1. split; [done|].
    by apply (int_claim_JWTError _ _ _ _ Hiat) in H1. }
  destruct (int_claim claims "nbf" _) as [e2|] eqn:H2.
  { exists e2. split; [done|].
    apply (int_claim_JWTError _ _ _ _ Hnbf) in H2; [done|].
    intros z e'. by destruct (timegm now <? z); intros [= <-]. }
  exists ExpiredSignatureError. split; [|done].
  cbn. unfold int_claim. rewrite Hexp, Hint.
  apply Z.ltb_lt in Hlt. by rewrite Hlt.
Qed.

(** An exception of [int] other than [ValueError] on a time claim ends
    the validation, when the time claims checked before it are
    absent. *)
Lemma int_claim_escapes claims name check v err :
  claims !! name = Some v -> py_int v = inr err -> err <> ValueError ->
  int_claim claims name check = Some err.
Proof.
  intros Hv Hint Hne. unfold int_claim. rewrite Hv, Hint. by destruct err.
Qed.

Lemma int_claim_absent claims name check :
  claims !! name = None -> int_claim claims name check = None.
Proof. intros Hv. unfold int_claim. by rewrite Hv. Qed.

Lemma validate_claims_escapes claims now name v err :
  claims !! name = Some v -> py_int v = inr err -> err <> ValueError ->
  name = "iat"
  \/ (name = "nbf" /\ claims !! "iat" = None)
  \/ (name = "exp" /\ claims !! "iat" = None /\ claims !! "nbf" = None) ->
  validate_claims claims now = Some err.
Proof.
  intros Hv Hint Hne Hname. unfold validate_claims.
  destruct Hname as [->|[(-> & Hiat)|(-> & Hiat & Hnbf)]].
  - by rewrite (int_claim_escapes _ _ _ v err).
  - rewrite int_claim_absent by done.
    by rewrite (int_claim_escapes _ "nbf" _ v err).
  - rewrite !int_claim_absent by done.
    by rewrite (int_claim_escapes _ "exp" _ v err).
Qed.

(** [jwt.decode] refuses a token whose expiry second has passed with a
    [JWTError], whatever its signature. *)
Lemma decode_expired alg claims sig key algs now v e :
  (forall v err, claims !! "iat" = Some v -> py_int v = inr err ->
                 err = ValueError) ->
  (forall v err, claims !! "nbf" = Some v -> py_int v = inr err ->
                 err = ValueError) ->
  claims !! "exp" = Some v -> py_int v = inl e -> e < timegm now ->
  exists err,
    decode sign (Compact alg claims sig) key algs now = inr err
    /\ is_JWTError err = true.
Proof.
  intros Hiat Hnbf Hexp Hint Hlt. unfold decode.
  destruct (bool_decide (alg ∈ algs)); [|by exists JWTError].
  destruct (String.eqb sig (sign key alg claims)); [|by exists JWTError].
  cbn [negb].
  destruct (validate_claims_expired claims now v e Hiat Hnbf Hexp Hint Hlt)
    as (err & -> & Herr).
  by exists err.
Qed.

(** How the [try] blocks answer what [jwt.decode] raises. *)
Lemma verify15_of_raised security_scopes token now err :
  decode sign token Ch15.SECRET_KEY [Ch15.ALGORITHM] now = inr err ->
  Ch15.verify_token sign security_scopes token now
  = if is_JWTError err then inr (Ch15.credentials_exception security_scopes)
    else inr (Uncaught (class_name err)).
Proof. intros Hd. unfold Ch15.verify_token. by rewrite Hd. Qed.

Lemma verify14_of_raised token now err :
  decode sign token Ch14.SECRET_KEY [Ch14.ALGORITHM] now = inr err ->
  Ch14.verify_token sign token now
  = if is_JWTError err then inr Ch14.credentials_exception
    else inr (Uncaught (class_name err)).
Proof. intros Hd. unfold Ch14.verify_token. by rewrite Hd. Qed.

(** A token that [create_access_token] issues with a lifetime other
    than zero is accepted until the end of its expiry second and gives
    back the subject and the scopes. *)
Lemma verify_issued_token (security_scopes : list string)
    (subject : string) (scopes : list string) (ttl now now' : Z) :
  ttl <> 0 -> timegm now' <= timegm (now + ttl) ->
  Ch15.verify_token sign security_scopes
    (Ch15.create_access_token sign
       (<["scopes" := CList (CStr <$> scopes)]> {["sub" := CStr subject]})
       (Some ttl) now)
    now'
  = inl {| Ch15.td_username := Some subject; Ch15.td_scopes := scopes |}.
Proof.
  intros Httl Hnow. unfold Ch15.verify_token, Ch15.create_access_token.
  assert ((ttl =? 0) = false) as -> by lia.
  unfold encode. rewrite decode_valid.
  - rewrite !encoded_claims_other by done.
    rewrite lookup_insert_ne by done. rewrite lookup_singleton_eq.
    rewrite lookup_insert_eq. cbn. by rewrite mapM_as_str.
  - apply list_elem_of_here.
  - apply (encoded_claims_valid _ _ _ subject);
      try (rewrite lookup_insert_ne by done; by apply lookup_singleton_ne);
      [|done].
    rewrite lookup_insert_ne by done. apply lookup_singleton_eq.
Qed.

(** C7. Round trip: a token issued by [create_access_token] for a
    subject and scopes with a positive lifetime, verified at once or at
    any later time before the expiry, under the same secret, is accepted
    and yields the subject and the scopes that were put in. *)
Theorem token_round_trip (security_scopes : list string)
    (subject : string) (scopes : list string) (ttl now now' : Z) :
  0 < ttl -> now <= now' < now + ttl ->
  Ch15.verify_token sign security_scopes
    (Ch15.create_access_token sign
       (<["scopes" := CList (CStr <$> scopes)]> {["sub" := CStr subject]})
       (Some ttl) now)
    now'
  = inl {| Ch15.td_username := Some subject; Ch15.td_scopes := scopes |}.
Proof.
  intros Httl Hnow. apply verify_issued_token; [lia|].
  apply timegm_mono. lia.
Qed.

(** C8, as the code has it. [verify] answers every [JWTError] of
    [jwt.decode] with the one [credentials_exception] (status 401): a
    signature that does not match, a text that is no token, and a token
    whose expiry second is before the current second (when [int] raises
    nothing but [ValueError] on its [iat] and [nbf]) are not told apart.
    A token that [jwt.decode] accepts (its signature matches and it has
    not expired) yields its subject and scopes. What no [except] clause
    catches is an exception of [jwt.decode] that is no [JWTError]: the
    [TypeError] or [OverflowError] that [int] raises on a time claim,
    such as [null], of a correctly signed token (on the first of [iat],
    [nbf] and [exp] that the token holds) leaves [verify] as it is. *)
Theorem verify_token_failures_are_one_kind (security_scopes : list string)
    (alg : string) (claims : gmap string ClaimVal) (sig : string) (now : Z) :
  let token := Compact alg claims sig in
  (forall any_token err,
     is_JWTError err = true ->
     (decode sign any_token Ch15.SECRET_KEY [Ch15.ALGORITHM] now = inr err ->
      Ch15.verify_token sign security_scopes any_token now
      = inr (Ch15.credentials_exception security_scopes))
     /\ (decode sign any_token Ch14.SECRET_KEY [Ch14.ALGORITHM] now = inr err ->
         Ch14.verify_token sign any_token now
         = inr Ch14.credentials_exception))
  /\ (sig <> sign Ch15.SECRET_KEY alg claims ->
      Ch15.verify_token sign security_scopes token now
      = inr (Ch15.credentials_exception security_scopes))
  /\ (sig <> sign Ch14.SECRET_KEY alg claims ->
      Ch14.verify_token sign token now = inr Ch14.credentials_exception)
  /\ (forall v e,
      claims !! "exp" = Some v -> py_int v = inl e -> e < timegm now ->
      (forall v' err, claims !! "iat" = Some v' -> py_int v' = inr err ->
                      err = ValueError) ->
      (forall v' err, claims !! "nbf" = Some v' -> py_int v' = inr err ->
                      err = ValueError) ->
      Ch15.verify_token sign security_scopes token now
      = inr (Ch15.credentials_exception security_scopes)
      /\ Ch14.verify_token sign token now = inr Ch14.credentials_exception)
  /\ (forall text,
      Ch15.verify_token sign security_scopes (Garbage text) now
      = inr (Ch15.credentials_exception security_scopes)
      /\ Ch14.verify_token sign (Garbage text) now
         = inr Ch14.credentials_exception)
  /\ (forall u,
      claims !! "sub" = Some (CStr u) ->
      (decode sign token Ch15.SECRET_KEY [Ch15.ALGORITHM] now = inl claims ->
       forall scopes,
         Ch15.as_str_list (default (CList []) (claims !! "scopes"))
         = Some scopes ->
         Ch15.verify_token sign security_scopes token now
         = inl {| Ch15.td_username := Some u; Ch15.td_scopes := scopes |})
      /\ (decode sign token Ch14.SECRET_KEY [Ch14.ALGORITHM] now = inl claims ->
          Ch14.verify_token sign token now = inl u))
  /\ status_code (Ch15.credentials_exception security_scopes)
     = HTTP_401_UNAUTHORIZED
  /\ status_code Ch14.credentials_exception = HTTP_401_UNAUTHORIZED
  /\ (forall any_token err,
      is_JWTError err = false ->
      (decode sign any_token Ch15.SECRET_KEY [Ch15.ALGORITHM] now = inr err ->
       Ch15.verify_token sign security_scopes any_token now
       = inr (Uncaught (class_name err)))
      /\ (decode sign any_token Ch14.SECRET_KEY [Ch14.ALGORITHM] now
          = inr err ->
          Ch14.verify_token sign any_token now
          = inr (Uncaught (class_name err))))
  /\ (forall name v err,
      claims !! name = Some v -> py_int v = inr err -> err <> ValueError ->
      name = "iat"
      \/ (name = "nbf" /\ claims !! "iat" = None)
      \/ (name = "exp" /\ claims !! "iat" = None /\ claims !! "nbf" = None) ->
      (alg = Ch15.ALGORITHM -> sig = sign Ch15.SECRET_KEY alg claims ->
       Ch15.verify_token sign security_scopes token now
       = inr (Uncaught (class_name err)))
      /\ (alg = Ch14.ALGORITHM -> sig = sign Ch14.SECRET_KEY alg claims ->
          Ch14.verify_token sign token now
          = inr (Uncaught (class_name err)))).
Proof.
  intros token. subst token.
  split.
  { intros any_token err Herr. split; intros Hd.
    - by rewrite (verify15_of_raised _ _ _ _ Hd), Herr.
    - by rewrite (verify14_of_raised _ _ _ Hd), Herr. }
  split.
  { intros Hsig. unfold Ch15.verify_token. by rewrite decode_bad_signature. }
  split.
  { intros Hsig. unfold Ch14.verify_token. by rewrite decode_bad_signature. }
  split.
  { intros v e Hexp Hint Hlt Hiat Hnbf. split.
    - destruct (decode_expired alg claims sig Ch15.SECRET_KEY [Ch15.ALGORITHM]
                  now v e Hiat Hnbf Hexp Hint Hlt) as (err & Hd & Herr).
      by rewrite (verify15_of_raised _ _ _ _ Hd), Herr.
    - destruct (decode_expired alg claims sig Ch14.SECRET_KEY [Ch14.ALGORITHM]
                  now v e Hiat Hnbf Hexp Hint Hlt) as (err & Hd & Herr).
      by rewrite (verify14_of_raised _ _ _ Hd), Herr. }
  split; [done|].
  split.
  { intros u Hsub. split.
    - intros Hd scopes Hscopes. unfold Ch15.verify_token.
      rewrite Hd, Hsub. cbn. by rewrite Hscopes.
    - intros Hd. unfold Ch14.verify_token. by rewrite Hd, Hsub. }
  split; [done|]. split; [done|].
  split.
  { intros any_token err Herr. split; intros Hd.
    - by rewrite (verify15_of_raised _ _ _ _ Hd), Herr.
    - by rewrite (verify14_of_raised _ _ _ Hd), Herr. }
  intros name v err Hv Hint Hne Hname.
  pose proof (validate_claims_escapes claims now name v err Hv Hint Hne Hname)
    as Hvalid.
  assert (Herr : is_JWTError err = false).
  { destruct v as [|b|z|[m ex|neg|]|s|items|fields|micros]; cbn in Hint;
      try destruct (Py.int_of_str s); by inversion Hint; subst. }
  split; intros -> ->.
  - rewrite (verify15_of_raised _ _ _ err); [by rewrite Herr|].
    rewrite decode_signed by apply list_elem_of_here. by rewrite Hvalid.
  - rewrite (verify14_of_raised _ _ err); [by rewrite Herr|].
    rewrite decode_signed by apply list_elem_of_here. by rewrite Hvalid.
Qed.

End TokenCodec.

Section TokenCodecSamples.
Import Jose Fastapi Samples.

Lemma token_round_trip_witness :
  Ch15.verify_token sample_sign []
    (Ch15.create_access_token sample_sign
       (<["scopes" := CList (CStr <$> ["items:read"])]>
          {["sub" := CStr "alice"]})
       (Some 60000000) 0)
    1
  = inl {| Ch15.td_username := Some "alice";
           Ch15.td_scopes := ["items:read"] |}.
Proof.
  apply (token_round_trip sample_sign [] "alice" ["items:read"] 60000000 0 1);
    lia.
Defined.

(** C8, as the claim states it, fails: a token with a forged signature
    and a token verified two hours after it was issued for 30 minutes
    get the same answer, the 401 [credentials_exception]; the caller
    cannot tell an invalid token from an expired one. *)
Lemma verify_token_same_answer_for_forged_and_expired :
  let forged := Ch15.verify_token sample_sign [] tampered_token 0 in
  let expired :=
    Ch15.verify_token sample_sign [] alice_token (timedelta_minutes 120) in
  Ch15.verify_token sample_sign [] alice_token 0
    = inl {| Ch15.td_username := Some "alice";
             Ch15.td_scopes := ["items:read"] |}
  /\ forged = inr (Ch15.credentials_exception [])
  /\ expired = inr (Ch15.credentials_exception [])
  /\ forged = expired.
Proof. vm_compute. repeat split. Qed.

Lemma alice_token_unfold :
  alice_token
  = Compact "HS256" alice_claims
      (sample_sign Ch15.SECRET_KEY "HS256" alice_claims).
Proof. vm_compute. repeat split. Qed.

Lemma tampered_token_unfold :
  tampered_token = Compact "HS256" alice_claims "forged".
Proof. vm_compute. repeat split. Qed.

Lemma alice_token_accepted :
  decode sample_sign
    (Compact "HS256" alice_claims
       (sample_sign Ch15.SECRET_KEY "HS256" alice_claims))
    Ch15.SECRET_KEY [Ch15.ALGORITHM] 0
  = inl alice_claims.
Proof. vm_compute. repeat split. Qed.

Lemma null_iat_claims_iat : null_iat_claims !! "iat" = Some CNull.
Proof. vm_compute. repeat split. Qed.

Lemma alice_claims_exp : alice_claims !! "exp" = Some (CInt 1800).
Proof. vm_compute. repeat split. Qed.

Lemma alice_claims_sub : alice_claims !! "sub" = Some (CStr "alice").
Proof. vm_compute. repeat split. Qed.

Lemma alice_claims_iat : alice_claims !! "iat" = None.
Proof. vm_compute. repeat split. Qed.

Lemma alice_claims_nbf : alice_claims !! "nbf" = None.
Proof. vm_compute. repeat split. Qed.

Lemma verify_token_failures_are_one_kind_witness :
  Ch15.verify_token sample_sign [] tampered_token (timedelta_minutes 120)
  = inr (Ch15.credentials_exception [])
  /\ Ch15.verify_token sample_sign [] alice_token (timedelta_minutes 120)
     = inr (Ch15.credentials_exception [])
  /\ Ch15.verify_token sample_sign [] alice_token 0
     = inl {| Ch15.td_username := Some "alice";
              Ch15.td_scopes := ["items:read"] |}
  /\ Ch15.verify_token sample_sign [] null_iat_token (timedelta_minutes 120)
     = inr (Uncaught "TypeError").
Proof.
  rewrite alice_token_unfold, tampered_token_unfold. unfold null_iat_token.
  destruct (verify_token_failures_are_one_kind sample_sign [] "HS256"
              alice_claims "forged" (timedelta_minutes 120))
    as (_ & Hforged & _).
  destruct (verify_token_failures_are_one_kind sample_sign [] "HS256"
              alice_claims (sample_sign Ch15.SECRET_KEY "HS256" alice_claims)
              (timedelta_minutes 120))
    as (_ & _ & _ & Hexpired & _).
  destruct (verify_token_failures_are_one_kind sample_sign [] "HS256"
              alice_claims (sample_sign Ch15.SECRET_KEY "HS256" alice_claims)
              0)
    as (_ & _ & _ & _ & _ & Haccepted & _).
  destruct (verify_token_failures_are_one_kind sample_sign [] "HS256"
              null_iat_claims
              (sample_sign Ch15.SECRET_KEY "HS256" null_iat_claims)
              (timedelta_minutes 120))
    as (_ & _ & _ & _ & _ & _ & _ & _ & _ & Hescapes).
  split; [|split; [|split]].
  - apply Hforged. vm_compute. discriminate.
  - apply (Hexpired (CInt 1800) 1800 alice_claims_exp eq_refl).
    + vm_compute. reflexivity.
    + intros v' err. rewrite alice_claims_iat. discriminate.
    + intros v' err. rewrite alice_claims_nbf. discriminate.
  - apply (proj1 (Haccepted "alice" alice_claims_sub) alice_token_accepted
             ["items:read"]).
    vm_compute. reflexivity.
  - apply (proj1 (Hescapes "iat" CNull TypeError null_iat_claims_iat eq_refl
                    ltac:(discriminate) (or_introl eq_refl)));
      reflexivity.
Defined.

End TokenCodecSamples.

(* ===================================================================== *)
(** * Properties of login and of the authorization chain                  *)
(* ===================================================================== *)

Section AuthorizationChain.
Import Jose Fastapi.
Context {ucd : Py.Unicode}.
Variable sign : string -> string -> gmap string ClaimVal -> string.
Variable pwd_verify : string -> string -> bool.

(** C9. The scopes put into the token of a successful login are the
    requested scopes that the authenticated user holds: each of them is
    a scope of the user record read at login, and each was requested.
    Verifying the token at the time of issue gives these scopes back. *)
Theorem login_scopes_within_user_scopes (db : gmap string Ch15.UserInDB)
    (form_data : Ch15.OAuth2PasswordRequestForm) (now : Z)
    (tok : Ch15.Token) :
  Ch15.login_for_access_token sign pwd_verify db form_data now = inl tok ->
  exists user granted claims,
    db !! Ch15.form_username form_data = Some user
    /\ pwd_verify (Ch15.form_password form_data) (Ch15.hashed_password user)
       = true
    /\ granted = filter (fun scope => scope ∈ Ch15.scopes user)
                   (Ch15.form_scopes form_data)
    /\ get_unverified_claims (Ch15.access_token tok) = Some claims
    /\ claims !! "sub" = Some (CStr (Ch15.username user))
    /\ claims !! "scopes" = Some (CList (CStr <$> granted))
    /\ granted ⊆ Ch15.scopes user
    /\ granted ⊆ Ch15.form_scopes form_data
    /\ Ch15.verify_token sign [] (Ch15.access_token tok) now
       = inl {| Ch15.td_username := Some (Ch15.username user);
                Ch15.td_scopes := granted |}.
Proof.
  unfold Ch15.login_for_access_token, Ch15.authenticate_user,
    Ch15.verify_password, Ch15.get_user.
  destruct (db !! Ch15.form_username form_data) as [user|] eqn:Hdb; [|done].
  destruct (pwd_verify _ _) eqn:Hpwd; [|done]. cbn.
  intros [= <-]. cbn.
  eexists user, _, _. split; [done|]. split; [done|]. split; [done|].
  split; [done|].
  split.
  { rewrite encoded_claims_other by done.
    rewrite !lookup_insert_ne by done. apply lookup_singleton_eq. }
  split.
  { rewrite encoded_claims_other by done. apply lookup_insert_eq. }
  split; [|split].
  - intros s Hs. by apply list_elem_of_filter in Hs as [? _].
  - intros s Hs. by apply list_elem_of_filter in Hs as [_ ?].
  - apply verify_issued_token;
      [unfold timedelta_minutes, Ch15.ACCESS_TOKEN_EXPIRE_MINUTES; lia|].
    apply timegm_mono.
    unfold timedelta_minutes, Ch15.ACCESS_TOKEN_EXPIRE_MINUTES. lia.
Qed.

Lemma forallb_scopes (required held : list string) :
  forallb (fun scope => bool_decide (scope ∈ held)) required = true
  <-> (forall s, s ∈ required -> s ∈ held).
Proof.
  rewrite forallb_forall. split.
  - intros H s Hs. apply list_elem_of_In in Hs.
    by apply H, bool_decide_eq_true_1 in Hs.
  - intros H s Hs. apply bool_decide_eq_true_2, H. by apply list_elem_of_In.
Qed.

(** C2, as the code has it. A request with a valid token whose subject
    is a user record that is disabled is refused with status 400 (Bad
    Request), in chapter 15 by [get_current_user] and in chapter 14 by
    [get_current_active_user]; 400 is neither 403 (Forbidden) nor 401
    (Unauthenticated). *)
Theorem inactive_user_is_bad_request (now : Z)
    (db15 : gmap string Ch15.UserInDB) (security_scopes : list string)
    (token15 : JWT) (token_data : Ch15.TokenData) (u15 : string)
    (user15 : Ch15.UserInDB)
    (db14 : gmap string Ch14.UserInDB) (token14 : JWT) (u14 : string)
    (user14 : Ch14.UserInDB) :
  Ch15.verify_token sign security_scopes token15 now = inl token_data ->
  Ch15.td_username token_data = Some u15 ->
  db15 !! u15 = Some user15 ->
  Ch15.disabled user15 = true ->
  Ch14.verify_token sign token14 now = inl u14 ->
  db14 !! u14 = Some user14 ->
  Ch14.disabled user14 = true ->
  Ch15.get_current_user sign db15 security_scopes token15 now
  = inr {| status_code := HTTP_400_BAD_REQUEST;
           detail := "비활성화된 사용자입니다";
           headers := None |}
  /\ Ch14.get_current_active_user sign db14 token14 now
     = inr {| status_code := HTTP_400_BAD_REQUEST;
              detail := "비활성화된 계정입니다. 관리자에게 문의해 주세요.";
              headers := None |}
  /\ HTTP_400_BAD_REQUEST <> HTTP_403_FORBIDDEN
  /\ HTTP_400_BAD_REQUEST <> HTTP_401_UNAUTHORIZED.
Proof.
  intros Hv15 Hu15 Hdb15 Hdis15 Hv14 Hdb14 Hdis14.
  split; [|split; [|done]].
  - unfold Ch15.get_current_user. rewrite Hv15, Hu15. cbn.
    unfold Ch15.get_user. by rewrite Hdb15, Hdis15.
  - unfold Ch14.get_current_active_user, Ch14.get_current_user.
    rewrite Hv14. unfold Ch14.get_user. by rewrite Hdb14, Hdis14.
Qed.

(** C3, as the code has it. For a valid token of an existing, active
    user: when some scope that the endpoint requires is not among the
    scopes of the token, [get_current_user] fails with status 401 and a
    [WWW-Authenticate] header that names the required scopes; when every
    required scope is among them, it returns the user's record. *)
Theorem scope_guard (now : Z) (db : gmap string Ch15.UserInDB)
    (security_scopes : list string) (token : JWT)
    (token_data : Ch15.TokenData) (u : string) (user : Ch15.UserInDB) :
  Ch15.verify_token sign security_scopes token now = inl token_data ->
  Ch15.td_username token_data = Some u ->
  db !! u = Some user ->
  Ch15.disabled user = false ->
  ((exists s, s ∈ security_scopes /\ s ∉ Ch15.td_scopes token_data) ->
   Ch15.get_current_user sign db security_scopes token now
   = inr {| status_code := HTTP_401_UNAUTHORIZED;
            detail := "이 작업에 필요한 권한이 부족합니다";
            headers := Some [("WWW-Authenticate",
                              Ch15.authenticate_value security_scopes)] |})
  /\ ((forall s, s ∈ security_scopes -> s ∈ Ch15.td_scopes token_data) ->
      Ch15.get_current_user sign db security_scopes token now = inl user).
Proof.
  intros Hv Hu Hdb Hdis. unfold Ch15.get_current_user.
  rewrite Hv, Hu. cbn. unfold Ch15.get_user. rewrite Hdb, Hdis.
  destruct (forallb _ security_scopes) eqn:Hall.
  - pose proof (proj1 (forallb_scopes _ _) Hall) as Hall'.
    split; [|done]. intros (s & Hs & Hn). by apply Hall' in Hs.
  - split; [done|]. intros Hall'.
    pose proof (proj2 (forallb_scopes _ _) Hall'). congruence.
Qed.

End AuthorizationChain.

Section AuthorizationChainSamples.
Import Jose Fastapi Samples.

Lemma alice_login_token :
  Ch15.login_for_access_token sample_sign sample_pwd_verify users15
    alice_login 0
  = inl {| Ch15.access_token := alice_token; Ch15.token_type := "bearer" |}.
Proof. vm_compute. repeat split. Qed.

Lemma login_scopes_within_user_scopes_witness :
  exists user granted claims,
    users15 !! "alice" = Some user
    /\ sample_pwd_verify "wonderland" (Ch15.hashed_password user) = true
    /\ granted = filter (fun scope => scope ∈ Ch15.scopes user)
                   ["items:read"; "items:write"]
    /\ get_unverified_claims alice_token = Some claims
    /\ claims !! "sub" = Some (CStr (Ch15.username user))
    /\ claims !! "scopes" = Some (CList (CStr <$> granted))
    /\ granted ⊆ Ch15.scopes user
    /\ granted ⊆ ["items:read"; "items:write"]
    /\ Ch15.verify_token sample_sign [] alice_token 0
       = inl {| Ch15.td_username := Some (Ch15.username user);
                Ch15.td_scopes := granted |}.
Proof.
  exact (login_scopes_within_user_scopes sample_sign sample_pwd_verify
           users15 alice_login 0 _ alice_login_token).
Defined.

Lemma bob_token_valid :
  Ch15.verify_token sample_sign [] bob_token 1
  = inl {| Ch15.td_username := Some "bob";
           Ch15.td_scopes := ["items:read"] |}.
Proof. vm_compute. repeat split. Qed.

Lemma carol_token_valid :
  Ch14.verify_token sample_sign carol_token 1 = inl "carol".
Proof. vm_compute. repeat split. Qed.

(** C2, as the claim states it, fails: the disabled user [bob], with a
    valid token, is refused with status 400, which is not 403. *)
Lemma inactive_user_is_not_forbidden :
  Ch15.verify_token sample_sign [] bob_token 1
  = inl {| Ch15.td_username := Some "bob";
           Ch15.td_scopes := ["items:read"] |}
  /\ users15 !! "bob" = Some bob
  /\ Ch15.disabled bob = true
  /\ exists e : HTTPException,
       Ch15.get_current_user sample_sign users15 [] bob_token 1 = inr e
       /\ status_code e = 400
       /\ status_code e <> HTTP_403_FORBIDDEN.
Proof.
  split; [exact bob_token_valid|]. split; [vm_compute; reflexivity|].
  split; [done|].
  eexists. split; [vm_compute; reflexivity|]. by split.
Qed.

Lemma inactive_user_is_bad_request_witness :
  Ch15.get_current_user sample_sign users15 [] bob_token 1
  = inr {| status_code := HTTP_400_BAD_REQUEST;
           detail := "비활성화된 사용자입니다";
           headers := None |}
  /\ Ch14.get_current_active_user sample_sign users14 carol_token 1
     = inr {| status_code := HTTP_400_BAD_REQUEST;
              detail := "비활성화된 계정입니다. 관리자에게 문의해 주세요.";
              headers := None |}
  /\ HTTP_400_BAD_REQUEST <> HTTP_403_FORBIDDEN
  /\ HTTP_400_BAD_REQUEST <> HTTP_401_UNAUTHORIZED.
Proof.
  apply (inactive_user_is_bad_request sample_sign 1 users15 [] bob_token
           _ "bob" bob users14 carol_token "carol" carol
           bob_token_valid eq_refl);
    [vm_compute; reflexivity | reflexivity | exact carol_token_valid
    | vm_compute; reflexivity | reflexivity].
Defined.

Lemma alice_token_valid (security_scopes : list string) :
  Ch15.verify_token sample_sign security_scopes alice_token 1
  = inl {| Ch15.td_username := Some "alice";
           Ch15.td_scopes := ["items:read"] |}.
Proof. vm_compute. repeat split. Qed.

(** C3, as the claim states it, fails: [alice], whose token holds the
    scope [items:read] only, calls an endpoint that requires
    [items:write] and is refused with status 401, which is not 403. *)
Lemma missing_scope_is_not_forbidden :
  Ch15.verify_token sample_sign ["items:write"] alice_token 1
  = inl {| Ch15.td_username := Some "alice";
           Ch15.td_scopes := ["items:read"] |}
  /\ users15 !! "alice" = Some alice
  /\ Ch15.disabled alice = false
  /\ exists e : HTTPException,
       Ch15.get_current_user sample_sign users15 ["items:write"]
         alice_token 1 = inr e
       /\ status_code e = 401
       /\ status_code e <> HTTP_403_FORBIDDEN.
Proof.
  split; [exact (alice_token_valid _)|]. split; [vm_compute; reflexivity|].
  split; [done|].
  eexists. split; [vm_compute; reflexivity|]. by split.
Qed.

Lemma scope_guard_witness :
  Ch15.get_current_user sample_sign users15 ["items:write"] alice_token 1
  = inr {| status_code := HTTP_401_UNAUTHORIZED;
           detail := "이 작업에 필요한 권한이 부족합니다";
           headers := Some [("WWW-Authenticate",
                             Ch15.authenticate_value ["items:write"])] |}
  /\ Ch15.get_current_user sample_sign users15 ["items:read"] alice_token 1
     = inl alice.
Proof.
  assert (Hdb : users15 !! "alice" = Some alice)
    by (vm_compute; reflexivity).
  split.
  - apply (proj1 (scope_guard sample_sign 1 users15 ["items:write"]
                    alice_token _ "alice" alice
                    (alice_token_valid _) eq_refl Hdb eq_refl)).
    exists "items:write". split; [apply list_elem_of_here|].
    cbn. by intros ?%list_elem_of_singleton.
  - apply (proj2 (scope_guard sample_sign 1 users15 ["items:read"]
                    alice_token _ "alice" alice
                    (alice_token_valid _) eq_refl Hdb eq_refl)).
    cbn. by intros s ->%list_elem_of_singleton; apply list_elem_of_here.
Defined.

End AuthorizationChainSamples.

(* ===================================================================== *)
(** * Further properties of the cache store                               *)
(* ===================================================================== *)

Section CacheStoreOperations.
Import Py Ch22.

(** X1. Round trip: a value stored with [set] is what [get] returns for
    the key at any time strictly before [set]'s clock reading plus
    [ttl]; the lookup is counted as a hit and leaves the entry in
    place. *)
Theorem set_then_get_live (t_set now ttl : Z) (key : string) (value : PyVal)
    (c : InMemoryCache) :
  now < t_set + ttl ->
  let after := get now key (set t_set key value ttl c) in
  after.1 = value
  /\ _store after.2 !! key = Some (value, t_set + ttl)
  /\ _hits after.2 = _hits c + 1
  /\ _misses after.2 = _misses c.
Proof.
  intros Hlt after. subst after. unfold get, set. cbn.
  rewrite lookup_insert_eq. apply Z.ltb_lt in Hlt. rewrite Hlt. cbn.
  by rewrite lookup_insert_eq.
Qed.

(** X2. Expiry: from [set]'s clock reading plus [ttl] on, [get] returns
    [None] for the key, counts a miss and removes the entry; so an entry
    stored with a [ttl] of zero or less can never be read, not even at
    once. *)
Theorem set_then_get_expired (t_set now ttl : Z) (key : string)
    (value : PyVal) (c : InMemoryCache) :
  t_set + ttl <= now ->
  get now key (set t_set key value ttl c)
  = (PyNone, {| _store := delete key (_store c);
                _hits := _hits c;
                _misses := _misses c + 1 |}).
Proof.
  intros Hle. unfold get, set. cbn. rewrite lookup_insert_eq.
  apply Z.ltb_ge in Hle. rewrite Hle. by rewrite delete_insert_eq.
Qed.

(** X3. Keys are independent: [set] on one key does not change what
    [get] returns or counts for another key, and [get] on one key leaves
    the entries of every other key as they were. *)
Theorem other_keys_untouched (t_set now ttl : Z) (key k : string)
    (value : PyVal) (c : InMemoryCache) :
  k <> key ->
  (get now k (set t_set key value ttl c)).1 = (get now k c).1
  /\ _hits (get now k (set t_set key value ttl c)).2 = _hits (get now k c).2
  /\ _misses (get now k (set t_set key value ttl c)).2
     = _misses (get now k c).2
  /\ _store (get now key c).2 !! k = _store c !! k
  /\ _store (set t_set key value ttl c) !! k = _store c !! k.
Proof.
  intros Hne. unfold get, set. cbn.
  rewrite (lookup_insert_ne _ key k) by done.
  split; [|split; [|split; [|split]]].
  - by destruct (_store c !! k) as [[v e]|]; [destruct (now <? e)|].
  - by destruct (_store c !! k) as [[v e]|]; [destruct (now <? e)|].
  - by destruct (_store c !! k) as [[v e]|]; [destruct (now <? e)|].
  - destruct (_store c !! key) as [[v e]|]; [destruct (now <? e)|];
      cbn; try done. by rewrite lookup_delete_ne.
  - done.
Qed.

(** X4. Last write wins: a second [set] on a key replaces the value and
    the expiry of the first, whatever the first [ttl] was. *)
Theorem set_overwrites (t1 t2 ttl1 ttl2 : Z) (key : string) (v1 v2 : PyVal)
    (c : InMemoryCache) :
  set t2 key v2 ttl2 (set t1 key v1 ttl1 c) = set t2 key v2 ttl2 c.
Proof. unfold set. cbn. by rewrite insert_insert_eq. Qed.

(** X5. After [clear] every key is absent and the counters restart: the
    first [get] returns [None] and is the only counted request. *)
Theorem clear_then_get (now : Z) (key : string) (c : InMemoryCache) :
  get now key (clear c)
  = (PyNone, {| _store := ∅; _hits := 0; _misses := 1 |}).
Proof. unfold get, clear. cbn. by rewrite lookup_empty. Qed.

Lemma delete_keys_lookup (keys : list string) (m : gmap string (PyVal * Z))
    (k : string) :
  fold_left (fun store key => delete key store) keys m !! k
  = if decide (k ∈ keys) then None else m !! k.
Proof.
  revert m. induction keys as [|key keys IH]; intros m; cbn.
  - by rewrite decide_False by apply not_elem_of_nil.
  - rewrite IH. destruct (decide (k ∈ keys)) as [Hin|Hnin].
    + by rewrite decide_True by (by right).
    + destruct (decide (k = key)) as [->|Hne].
      * rewrite decide_True by (by left). apply lookup_delete_eq.
      * rewrite decide_False by (by intros [?|?]%elem_of_cons).
        by apply lookup_delete_ne.
Qed.

Lemma filter_none {A} (P : A -> Prop) `{forall x, Decision (P x)}
    (l : list A) :
  (forall x, x ∈ l -> ¬ P x) -> filter P l = [].
Proof.
  induction l as [|x l IH]; intros Hall; [done|].
  rewrite filter_cons_False by (apply Hall; by left).
  apply IH. intros y Hy. apply Hall. by right.
Qed.

Lemma expired_key_iff (now : Z) (m : gmap string (PyVal * Z)) (k : string) :
  k ∈ (filter (fun kv => now >= snd (snd kv)) (map_to_list m)).*1
  <-> exists v e, m !! k = Some (v, e) /\ e <= now.
Proof.
  rewrite list_elem_of_fmap. split.
  - intros ([k' [v e]] & -> & Hin). apply list_elem_of_filter in Hin as [He Hin].
    apply elem_of_map_to_list in Hin. exists v, e. cbn in *. split; [done|lia].
  - intros (v & e & Hk & He). exists (k, (v, e)). split; [done|].
    apply list_elem_of_filter. split; [cbn; lia|].
    by apply elem_of_map_to_list.
Qed.

Lemma cleanup_expired_store (now : Z) (c : InMemoryCache) :
  _store (cleanup_expired now c).2
  = filter (fun kv => now < snd (snd kv)) (_store c).
Proof.
  unfold cleanup_expired. cbn.
  apply map_eq. intros k. rewrite delete_keys_lookup.
  destruct (decide (k ∈ _)) as [Hin|Hnin].
  - apply expired_key_iff in Hin as (v & e & Hk & He). symmetry.
    apply map_lookup_filter_None. right. intros [v' e'] Hk'. cbn.
    rewrite Hk in Hk'. simplify_eq. lia.
  - destruct (_store c !! k) as [[v e]|] eqn:Hk.
    + symmetry. apply map_lookup_filter_Some. split; [done|]. cbn.
      destruct (decide (now < e)); [done|]. exfalso. apply Hnin.
      apply expired_key_iff. exists v, e. split; [done|lia].
    + symmetry. apply map_lookup_filter_None. by left.
Qed.

(** X6. The sweep: after [cleanup_expired] at time [now] the entries are
    exactly the entries that had [now < expires_at], unchanged; the
    counters are unchanged; and the number returned is the number of
    entries removed. *)
Theorem cleanup_expired_sweeps (now : Z) (c : InMemoryCache) :
  let result := cleanup_expired now c in
  _store result.2 = filter (fun kv => now < snd (snd kv)) (_store c)
  /\ (forall k v e, _store result.2 !! k = Some (v, e) ->
      _store c !! k = Some (v, e) /\ now < e)
  /\ _hits result.2 = _hits c /\ _misses result.2 = _misses c
  /\ Z.of_nat (size (_store c))
     = result.1 + Z.of_nat (size (_store result.2)).
Proof.
  intros result. subst result.
  pose proof (cleanup_expired_store now c) as Hstore.
  unfold cleanup_expired in *. cbn in *.
  rewrite Hstore. split; [done|]. split.
  { intros k v e Hk. by apply map_lookup_filter_Some in Hk. }
  split; [done|]. split; [done|].
  rewrite length_fmap.
  rewrite (map_filter_alt (fun kv => now < snd (snd kv))).
  rewrite map_size_list_to_map.
  2:{ apply (sublist_NoDup _ (map_to_list (_store c)).*1).
      - apply NoDup_fst_map_to_list.
      - apply fmap_sublist, sublist_filter. }
  rewrite <- length_map_to_list.
  rewrite <- (filter_app_complement
                (fun kv : string * (PyVal * Z) => now >= snd (snd kv))
                (map_to_list (_store c))) at 1.
  rewrite length_app.
  assert (Hflip :
    filter (fun kv : string * (PyVal * Z) => ¬ now >= snd (snd kv))
      (map_to_list (_store c))
    = filter (fun kv => now < snd (snd kv)) (map_to_list (_store c))).
  { apply list_filter_iff. intros kv. lia. }
  rewrite Hflip. lia.
Qed.

(** X7. A second sweep at the same time, or at an earlier one, removes
    nothing. *)
Theorem cleanup_expired_idempotent (now now' : Z) (c : InMemoryCache) :
  now' <= now ->
  cleanup_expired now' (cleanup_expired now c).2
  = (0, (cleanup_expired now c).2).
Proof.
  intros Hle.
  assert (Hlive : forall k v e,
             _store (cleanup_expired now c).2 !! k = Some (v, e) -> now < e).
  { intros k v e Hk. rewrite cleanup_expired_store in Hk.
    by apply map_lookup_filter_Some in Hk as [_ Hk]. }
  set (c1 := (cleanup_expired now c).2) in *.
  assert (Hnone :
    filter (fun kv => now' >= snd (snd kv)) (map_to_list (_store c1)) = []).
  { apply filter_none. intros [k [v e]] Hin Hexp.
    apply elem_of_map_to_list in Hin. apply Hlive in Hin.
    cbn in Hexp. lia. }
  unfold cleanup_expired. rewrite Hnone. cbn. by destruct c1.
Qed.

(** X8. Lookups are counted once each and never add entries: after any
    sequence of [get] calls the sum of the two counters has grown by the
    number of calls, and the entries are among those before. *)
Theorem gets_are_counted (queries : list (Z * string)) (c : InMemoryCache) :
  let after := fold_left (fun cache q => (get q.1 q.2 cache).2) queries c in
  _hits after + _misses after
  = _hits c + _misses c + Z.of_nat (length queries)
  /\ _store after ⊆ _store c.
Proof.
  cbv zeta. revert c. induction queries as [|[now key] queries IH]; intros c.
  - cbn. split; [lia|done].
  - cbn [fold_left length fst snd].
    destruct (IH (get now key c).2) as [Hcount Hsub].
    split.
    + rewrite Hcount. unfold get. cbn.
      destruct (_store c !! key) as [[v e]|]; [destruct (now <? e)|];
        cbn; lia.
    + etrans; [exact Hsub|]. unfold get. cbn.
      destruct (_store c !! key) as [[v e]|]; [destruct (now <? e)|];
        cbn; try done. apply delete_subseteq.
Qed.

End CacheStoreOperations.

(* ===================================================================== *)
(** * Further properties of the [cached] decorator                        *)
(* ===================================================================== *)

Section MemoizationOverTime.
Import Py Ch22.
Context {ucd : Unicode} {E : Type}.

(** A lookup that gave [None] gives [None] again at any time, as long as
    nothing was stored in between. *)
Lemma get_None_again (t1 t2 : Z) (key : string) (c : InMemoryCache) :
  (get t1 key c).1 = PyNone -> (get t2 key (get t1 key c).2).1 = PyNone.
Proof.
  unfold get.
  destruct (_store c !! key) as [[v e]|] eqn:Hk.
  - destruct (t1 <? e); cbn.
    + intros ->. rewrite Hk. by destruct (t2 <? e).
    + intros _. by rewrite lookup_delete_eq.
  - cbn. intros _. by rewrite Hk.
Qed.

Lemma cached_miss_raise ttl (f : PyFunc E) args kw t_get t_set w e e1 :
  (get t_get (cache_key f args kw) (cache w)).1 = PyNone ->
  call f args kw (env w) = (Raise e, e1) ->
  cached ttl f args kw t_get t_set w
    = (Raise e,
       {| cache := (get t_get (cache_key f args kw) (cache w)).2;
          env := e1;
          invoked := invoked w ++ [this_call f args kw] |}).
Proof.
  intros Hget Hcall. unfold cached.
  destruct (get t_get (cache_key f args kw) (cache w)) as [v c1].
  cbn in Hget. subst v. cbn. by rewrite Hcall.
Qed.

(** X9. Once the stored entry has expired, the decorator computes
    again: when the second of two calls with the same arguments looks
    the key up at or after the expiry of the entry that the first one
    stored, the wrapped function is called a second time, its new result
    is returned and stored with a fresh expiry. *)
Theorem cached_recomputes_after_expiry ttl (f : PyFunc E) args kw
    (t1 t1' t2 t2' : Z) (w : World E) (r1 r2 : PyVal) (e1 e2 : E) :
  (get t1 (cache_key f args kw) (cache w)).1 = PyNone ->
  call f args kw (env w) = (Return r1, e1) ->
  call f args kw e1 = (Return r2, e2) ->
  t1' + ttl <= t2 ->
  let key := cache_key f args kw in
  let first := cached ttl f args kw t1 t1' w in
  let second := cached ttl f args kw t2 t2' first.2 in
  second.1 = Return r2
  /\ invoked second.2
     = invoked w ++ [this_call f args kw; this_call f args kw]
  /\ env second.2 = e2
  /\ _store (cache second.2) !! key = Some (r2, t2' + ttl).
Proof.
  intros Hmiss Hcall1 Hcall2 Hle key first second. subst key first second.
  rewrite (cached_miss_return ttl f args kw t1 t1' w r1 e1 Hmiss Hcall1).
  cbn.
  assert (Hlate : forall c,
    get t2 (cache_key f args kw) (set t1' (cache_key f args kw) r1 ttl c)
    = (PyNone, {| _store := delete (cache_key f args kw) (_store c);
                  _hits := _hits c; _misses := _misses c + 1 |})).
  { intros c. unfold get, set. cbn. rewrite lookup_insert_eq.
    apply Z.ltb_ge in Hle. rewrite Hle. by rewrite delete_insert_eq. }
  rewrite (cached_miss_return ttl f args kw t2 t2' _ r2 e2); cbn;
    [|by rewrite Hlate|done].
  rewrite <- app_assoc. repeat split; try done.
  unfold set. cbn. apply lookup_insert_eq.
Qed.

(** X10. A failure is not remembered: after a call whose lookup gave
    [None] and whose wrapped function raised, the next call with the
    same arguments, at any time, finds no value and calls the wrapped
    function again; it ends as that second run of the function ends. *)
Theorem cached_retries_after_raise ttl (f : PyFunc E) args kw
    (t1 t1' t2 t2' : Z) (w : World E) (e : PyExn) (e1 : E) :
  (get t1 (cache_key f args kw) (cache w)).1 = PyNone ->
  call f args kw (env w) = (Raise e, e1) ->
  let first := cached ttl f args kw t1 t1' w in
  let second := cached ttl f args kw t2 t2' first.2 in
  first.1 = Raise e
  /\ second.1 = (call f args kw e1).1
  /\ env second.2 = (call f args kw e1).2
  /\ invoked second.2
     = invoked w ++ [this_call f args kw; this_call f args kw].
Proof.
  intros Hmiss Hcall first second. subst first second.
  rewrite (cached_miss_raise ttl f args kw t1 t1' w e e1 Hmiss Hcall). cbn.
  pose proof (get_None_again t1 t2 _ _ Hmiss) as Hagain.
  destruct (call f args kw e1) as [[r2|e2] env2] eqn:Hcall2.
  - rewrite (cached_miss_return ttl f args kw t2 t2' _ r2 env2); cbn;
      [|done..]. by rewrite <- app_assoc.
  - rewrite (cached_miss_raise ttl f args kw t2 t2' _ e2 env2); cbn;
      [|done..]. by rewrite <- app_assoc.
Qed.

End MemoizationOverTime.

Section KeyText.
Import Py Ch22.
Context {ucd : Unicode}.

Lemma length_append (s1 s2 : string) :
  String.length (s1 +:+ s2) = (String.length s1 + String.length s2)%nat.
Proof.
  induction s1 as [|a s1 IH]; [done|].
  change (String a s1 +:+ s2) with (String a (s1 +:+ s2)). cbn. by rewrite IH.
Qed.

(** X11. An argument passed by position and the same argument passed by
    keyword give different key texts: [f(v)] and [f(n=v)] never share
    the text that is hashed into the cache key. *)
Theorem key_source_position_or_keyword {E} (f : PyFunc E) (n : string)
    (v : PyVal) :
  key_source f [v] [] <> key_source f [] [(n, v)].
Proof.
  intros Heq. apply (f_equal String.length) in Heq.
  unfold key_source, sorted_items in Heq.
  change (merge_sort item_le []) with (@nil (string * PyVal)) in Heq.
  change (merge_sort item_le [(n, v)]) with [(n, v)] in Heq.
  cbn [map repr fst snd] in Heq. unfold repr_tuple, repr_list in Heq.
  cbn [join] in Heq.
  rewrite !length_append in Heq. cbn [String.length] in Heq. lia.
Qed.

End KeyText.

Section ReprOfText.
Import Py.

(** [repr] of a text with a character above U+007F: the character is
    kept when it is printable and is escaped otherwise, the no-break
    space U+00A0 as [\xa0], the zero-width space U+200B as [\u200b], the
    language tag U+E0001 as [\U000e0001]. *)
Lemma repr_no_break_space {ucd : Unicode} :
  repr (PyStr (String (ascii_of_nat 194) (str1 (ascii_of_nat 160))))
  = if isprintable 160
    then "'" +:+ String (ascii_of_nat 194) (str1 (ascii_of_nat 160)) +:+ "'"
    else "'\xa0'".
Proof.
  destruct ucd as [printable int]. cbn [isprintable].
  destruct (printable 160%N) eqn:Hp; vm_compute; rewrite Hp; reflexivity.
Qed.

Lemma repr_zero_width_space {ucd : Unicode} :
  repr (PyStr (String (ascii_of_nat 226)
                 (String (ascii_of_nat 128) (str1 (ascii_of_nat 139)))))
  = if isprintable 8203
    then "'" +:+ String (ascii_of_nat 226)
                   (String (ascii_of_nat 128) (str1 (ascii_of_nat 139)))
         +:+ "'"
    else "'\u200b'".
Proof.
  destruct ucd as [printable int]. cbn [isprintable].
  destruct (printable 8203%N) eqn:Hp; vm_compute; rewrite Hp; reflexivity.
Qed.

Lemma repr_language_tag {ucd : Unicode} :
  repr (PyStr (String (ascii_of_nat 243)
                 (String (ascii_of_nat 160)
                    (String (ascii_of_nat 128) (str1 (ascii_of_nat 129))))))
  = if isprintable 917505
    then "'" +:+ String (ascii_of_nat 243)
                   (String (ascii_of_nat 160)
                      (String (ascii_of_nat 128) (str1 (ascii_of_nat 129))))
         +:+ "'"
    else "'\U000e0001'".
Proof.
  destruct ucd as [printable int]. cbn [isprintable].
  destruct (printable 917505%N) eqn:Hp; vm_compute; rewrite Hp; reflexivity.
Qed.

End ReprOfText.

(* ===================================================================== *)
(** * Further properties of tokens, login and the guards                  *)
(* ===================================================================== *)

Section IssuedTokens.
Import Jose Fastapi.
Context {ucd : Py.Unicode}.
Variable sign : string -> string -> gmap string ClaimVal -> string.

Lemma encoded_claims_expired (data : gmap string ClaimVal) (expire now : Z) :
  data !! "iat" = None -> data !! "nbf" = None ->
  timegm expire < timegm now ->
  validate_claims
    (alter int_date "nbf" (alter int_date "iat" (alter int_date "exp"
       (<["exp" := CDatetime expire]> data)))) now
  = Some ExpiredSignatureError.
Proof.
  intros Hiat Hnbf Hlt. unfold validate_claims, int_claim.
  rewrite (encoded_claims_absent _ _ "iat"), (encoded_claims_absent _ _ "nbf")
    by done.
  rewrite encoded_claims_exp. cbn.
  apply Z.ltb_lt in Hlt. by rewrite Hlt.
Qed.

(** Verification, in chapter 15, of the token that carries a subject,
    scopes and an expiry. *)
Lemma verify_encoded15 (security_scopes : list string) (subject : string)
    (scopes : list string) (expire now' : Z) :
  Ch15.verify_token sign security_scopes
    (encode sign
       (<["exp" := CDatetime expire]>
          (<["scopes" := CList (CStr <$> scopes)]> {["sub" := CStr subject]}))
       Ch15.SECRET_KEY Ch15.ALGORITHM)
    now'
  = if decide (timegm now' <= timegm expire) then
      inl {| Ch15.td_username := Some subject; Ch15.td_scopes := scopes |}
    else inr (Ch15.credentials_exception security_scopes).
Proof.
  unfold Ch15.verify_token, encode. case_decide as Hle.
  - rewrite decode_valid.
    + rewrite !encoded_claims_other by done.
      rewrite lookup_insert_ne by done. rewrite lookup_singleton_eq.
      rewrite lookup_insert_eq. cbn. by rewrite mapM_as_str.
    + apply list_elem_of_here.
    + apply (encoded_claims_valid _ _ _ subject);
        try (rewrite lookup_insert_ne by done; by apply lookup_singleton_ne);
        [|done].
      rewrite lookup_insert_ne by done. apply lookup_singleton_eq.
  - unfold decode. rewrite bool_decide_eq_true_2 by apply list_elem_of_here.
    rewrite String.eqb_refl. cbn [negb].
    rewrite encoded_claims_expired; [done| | |lia];
      rewrite lookup_insert_ne by done; by apply lookup_singleton_ne.
Qed.

(** The same in chapter 14, where the token carries the subject only. *)
Lemma verify_encoded14 (subject : string) (expire now' : Z) :
  Ch14.verify_token sign
    (encode sign (<["exp" := CDatetime expire]> {["sub" := CStr subject]})
       Ch14.SECRET_KEY Ch14.ALGORITHM)
    now'
  = if decide (timegm now' <= timegm expire) then inl subject
    else inr Ch14.credentials_exception.
Proof.
  unfold Ch14.verify_token, encode. case_decide as Hle.
  - rewrite decode_valid.
    + rewrite !encoded_claims_other by done. by rewrite lookup_singleton_eq.
    + apply list_elem_of_here.
    + apply (encoded_claims_valid _ _ _ subject);
        try (by apply lookup_singleton_ne); [|done].
      apply lookup_singleton_eq.
  - unfold decode. rewrite bool_decide_eq_true_2 by apply list_elem_of_here.
    rewrite String.eqb_refl. cbn [negb].
    rewrite encoded_claims_expired; [done| | |lia];
      by apply lookup_singleton_ne.
Qed.

(** X12. The validity window of an issued token. A token of
    [create_access_token] lives for the given [timedelta], or for 15
    minutes when none is given or when it is zero. It is accepted, with
    the subject and scopes it was issued for, as long as the current
    second is not after its expiry second, and refused with the 401
    [credentials_exception] from the next second on; a negative
    [timedelta] of a second or more gives a token that is refused from
    the start. *)
Theorem issued_token_window (security_scopes : list string)
    (subject : string) (scopes : list string) (expires_delta : option Z)
    (now now' : Z) :
  let lifetime :=
    match expires_delta with
    | Some delta => if decide (delta = 0) then timedelta_minutes 15 else delta
    | None => timedelta_minutes 15
    end in
  Ch15.verify_token sign security_scopes
    (Ch15.create_access_token sign
       (<["scopes" := CList (CStr <$> scopes)]> {["sub" := CStr subject]})
       expires_delta now)
    now'
  = if decide (timegm now' <= timegm (now + lifetime)) then
      inl {| Ch15.td_username := Some subject; Ch15.td_scopes := scopes |}
    else inr (Ch15.credentials_exception security_scopes).
Proof.
  intros lifetime. subst lifetime. unfold Ch15.create_access_token.
  destruct expires_delta as [delta|]; [|apply verify_encoded15].
  destruct (decide (delta = 0)) as [->|Hz].
  - cbn [Z.eqb]. apply verify_encoded15.
  - assert ((delta =? 0) = false) as -> by lia. apply verify_encoded15.
Qed.

(** X13. The chain is sound: when [get_current_user] returns a user
    record, the token was accepted by the verification, the record is the
    one stored under the token's subject, it is not disabled, and every
    scope that the endpoint requires is among the scopes of the token. *)
Theorem authorized_passed_every_guard (db : gmap string Ch15.UserInDB)
    (security_scopes : list string) (token : JWT) (now : Z)
    (user : Ch15.UserInDB) :
  Ch15.get_current_user sign db security_scopes token now = inl user ->
  exists subject token_scopes,
    Ch15.verify_token sign security_scopes token now
    = inl {| Ch15.td_username := Some subject;
             Ch15.td_scopes := token_scopes |}
    /\ db !! subject = Some user
    /\ Ch15.disabled user = false
    /\ (forall s, s ∈ security_scopes -> s ∈ token_scopes).
Proof.
  unfold Ch15.get_current_user.
  destruct (Ch15.verify_token sign security_scopes token now)
    as [[[subject|] token_scopes]|] eqn:Hv; cbn; [|done..].
  unfold Ch15.get_user.
  destruct (db !! subject) as [user'|] eqn:Hdb; [|done].
  destruct (Ch15.disabled user') eqn:Hdis; [done|].
  destruct (forallb _ security_scopes) eqn:Hall; [|done].
  intros [= <-]. exists subject, token_scopes.
  repeat split; try done. by apply forallb_scopes.
Qed.

(** X14. A valid token whose subject is not in the user store is
    refused with the 401 [credentials_exception], by [get_current_user]
    of both chapters and by [role_required], whatever scopes or roles
    are asked for. *)
Theorem unknown_subject_is_unauthenticated
    (db15 : gmap string Ch15.UserInDB) (db14 : gmap string Ch14.UserInDB)
    (security_scopes : list string) (allowed_roles : list Ch15.Role)
    (token15 token14 : JWT) (now : Z) (token_scopes : list string)
    (subject15 subject14 : string) :
  Ch15.verify_token sign security_scopes token15 now
  = inl {| Ch15.td_username := Some subject15;
           Ch15.td_scopes := token_scopes |} ->
  Ch15.verify_token sign [] token15 now
  = inl {| Ch15.td_username := Some subject15;
           Ch15.td_scopes := token_scopes |} ->
  db15 !! subject15 = None ->
  Ch14.verify_token sign token14 now = inl subject14 ->
  db14 !! subject14 = None ->
  Ch15.get_current_user sign db15 security_scopes token15 now
  = inr (Ch15.credentials_exception security_scopes)
  /\ Ch15.role_required sign allowed_roles db15 token15 now
     = inr (Ch15.credentials_exception [])
  /\ Ch14.get_current_active_user sign db14 token14 now
     = inr Ch14.credentials_exception.
Proof.
  intros Hv Hv0 Hdb Hv14 Hdb14. split; [|split].
  - unfold Ch15.get_current_user. rewrite Hv. cbn.
    unfold Ch15.get_user. by rewrite Hdb.
  - unfold Ch15.role_required, Ch15.get_current_user. rewrite Hv0. cbn.
    unfold Ch15.get_user. by rewrite Hdb.
  - unfold Ch14.get_current_active_user, Ch14.get_current_user.
    rewrite Hv14. unfold Ch14.get_user. by rewrite Hdb14.
Qed.

Lemma role_required_inv (allowed_roles : list Ch15.Role)
    (db : gmap string Ch15.UserInDB) (token : JWT) (now : Z)
    (user : Ch15.UserInDB) :
  Ch15.role_required sign allowed_roles db token now = inl user ->
  Ch15.get_current_user sign db [] token now = inl user
  /\ Ch15.role user ∈ allowed_roles.
Proof.
  unfold Ch15.role_required.
  destruct (Ch15.get_current_user sign db [] token now) as [user'|e];
    [|done].
  case_bool_decide as Hrole; cbn; [|done]. by intros [= <-].
Qed.

(** X15. [role_required] is sound and answers a wrong role with 403:
    it returns a record only when [get_current_user] returned it and its
    role is among the allowed roles; for a record that
    [get_current_user] returns with another role it fails with status
    403; and what [get_current_user] refuses (401, or 400 for a disabled
    user) is refused in the same way, before the role is looked at. *)
Theorem role_required_guard (allowed_roles : list Ch15.Role)
    (db : gmap string Ch15.UserInDB) (token : JWT) (now : Z) :
  let result := Ch15.role_required sign allowed_roles db token now in
  (forall user, result = inl user ->
     Ch15.get_current_user sign db [] token now = inl user
     /\ Ch15.role user ∈ allowed_roles)
  /\ (forall user,
        Ch15.get_current_user sign db [] token now = inl user ->
        Ch15.role user ∉ allowed_roles ->
        exists e : HTTPException,
          result = inr e /\ status_code e = HTTP_403_FORBIDDEN)
  /\ (forall e,
        Ch15.get_current_user sign db [] token now = inr e ->
        result = inr e).
Proof.
  intros result. subst result. unfold Ch15.role_required.
  destruct (Ch15.get_current_user sign db [] token now) as [user|e] eqn:Hu.
  - split; [|split]; [| |done].
    + intros user'. case_bool_decide as Hrole; cbn; [|done].
      by intros [= <-].
    + intros user' [= <-] Hrole.
      rewrite bool_decide_eq_false_2 by done. cbn. by eexists.
  - split; [done|]. split; [done|]. by intros e' [= <-].
Qed.

End IssuedTokens.

Section LoginAndEndpoints.
Import Jose Fastapi.
Context {ucd : Py.Unicode}.
Variable sign : string -> string -> gmap string ClaimVal -> string.
Variable pwd_verify : string -> string -> bool.
Variable pwd_hash : string -> string.

(** The token that a successful login of chapter 15 issues. *)
Lemma login15_token (db : gmap string Ch15.UserInDB)
    (form_data : Ch15.OAuth2PasswordRequestForm) (now : Z)
    (user : Ch15.UserInDB) :
  db !! Ch15.form_username form_data = Some user ->
  pwd_verify (Ch15.form_password form_data) (Ch15.hashed_password user)
  = true ->
  Ch15.login_for_access_token sign pwd_verify db form_data now
  = inl {| Ch15.access_token :=
             Ch15.create_access_token sign
               (<["scopes" :=
                    CList (CStr <$> filter (fun scope =>
                                              scope ∈ Ch15.scopes user)
                                      (Ch15.form_scopes form_data))]>
                  {["sub" := CStr (Ch15.username user)]})
               (Some (timedelta_minutes Ch15.ACCESS_TOKEN_EXPIRE_MINUTES))
               now;
           Ch15.token_type := "bearer" |}.
Proof.
  intros Hdb Hpwd.
  unfold Ch15.login_for_access_token, Ch15.authenticate_user,
    Ch15.verify_password, Ch15.get_user.
  by rewrite Hdb, Hpwd.
Qed.

(** X16. Login does not tell an unknown user from a wrong password: in
    both chapters, whenever the login fails it fails with one and the
    same 401 error, and it fails exactly when the name is not in the user
    store or the password does not verify against the stored hash. *)
Theorem login_failure_is_uniform (db15 : gmap string Ch15.UserInDB)
    (form_data : Ch15.OAuth2PasswordRequestForm)
    (db14 : gmap string Ch14.UserInDB) (username password : string)
    (now : Z) :
  let login15 :=
    Ch15.login_for_access_token sign pwd_verify db15 form_data now in
  let login14 :=
    Ch14.login_for_access_token sign pwd_verify db14 username password now in
  (login15
   = inr {| status_code := HTTP_401_UNAUTHORIZED;
            detail := "사용자명 또는 비밀번호가 올바르지 않습니다";
            headers := Some [("WWW-Authenticate", "Bearer")] |}
   \/ exists tok, login15 = inl tok)
  /\ ((exists tok, login15 = inl tok) <->
      exists user, db15 !! Ch15.form_username form_data = Some user
        /\ pwd_verify (Ch15.form_password form_data)
             (Ch15.hashed_password user) = true)
  /\ (login14
      = inr {| status_code := HTTP_401_UNAUTHORIZED;
               detail := "사용자명 또는 비밀번호가 올바르지 않습니다.";
               headers := Some [("WWW-Authenticate", "Bearer")] |}
      \/ exists tok, login14 = inl tok)
  /\ ((exists tok, login14 = inl tok) <->
      exists user, db14 !! username = Some user
        /\ pwd_verify password (Ch14.hashed_password user) = true).
Proof.
  intros login15 login14. subst login15 login14.
  unfold Ch15.login_for_access_token, Ch15.authenticate_user,
    Ch15.verify_password, Ch15.get_user,
    Ch14.login_for_access_token, Ch14.authenticate_user,
    Ch14.verify_password, Ch14.get_user.
  split; [|split; [|split]].
  - destruct (db15 !! _) as [user|]; [|by left].
    destruct (pwd_verify _ _); [right; by eexists|by left].
  - destruct (db15 !! _) as [user|].
    + destruct (pwd_verify _ _) eqn:Hp; cbn.
      * split; [intros _; by exists user|intros _; by eexists].
      * split; [by intros [tok ?]|]. intros (user' & [= <-] & Hp').
        congruence.
    + split; [by intros [tok ?]|by intros (user' & ? & _)].
  - destruct (db14 !! _) as [user|]; [|by left].
    destruct (pwd_verify _ _); [right; by eexists|by left].
  - destruct (db14 !! _) as [user|].
    + destruct (pwd_verify _ _) eqn:Hp; cbn.
      * split; [intros _; by exists user|intros _; by eexists].
      * split; [by intros [tok ?]|]. intros (user' & [= <-] & Hp').
        congruence.
    + split; [by intros [tok ?]|by intros (user' & ? & _)].
Qed.

(** X17. Login, then a protected call: a user whose record is stored
    under its own name, who logs in with the right password, is not
    disabled, and asks at login for scopes that the record holds, gets a
    token with which [get_current_user] returns the record for every
    endpoint that requires only such scopes, until the end of the second
    in which the 30 minutes run out. *)
Theorem login_then_authorized (db : gmap string Ch15.UserInDB)
    (form_data : Ch15.OAuth2PasswordRequestForm) (user : Ch15.UserInDB)
    (required : list string) (now now' : Z) :
  db !! Ch15.form_username form_data = Some user ->
  Ch15.username user = Ch15.form_username form_data ->
  pwd_verify (Ch15.form_password form_data) (Ch15.hashed_password user)
  = true ->
  Ch15.disabled user = false ->
  (forall s, s ∈ required ->
     s ∈ Ch15.form_scopes form_data /\ s ∈ Ch15.scopes user) ->
  timegm now' <= timegm (now + timedelta_minutes 30) ->
  exists tok,
    Ch15.login_for_access_token sign pwd_verify db form_data now = inl tok
    /\ Ch15.get_current_user sign db required (Ch15.access_token tok) now'
       = inl user.
Proof.
  intros Hdb Hname Hpwd Hdis Hreq Hnow.
  eexists. split; [by apply login15_token|]. cbn.
  unfold Ch15.get_current_user, Ch15.create_access_token.
  assert ((timedelta_minutes Ch15.ACCESS_TOKEN_EXPIRE_MINUTES =? 0) = false)
    as -> by done.
  rewrite verify_encoded15. rewrite decide_True by done. cbn.
  unfold Ch15.get_user. rewrite Hname, Hdb, Hdis.
  rewrite (proj2 (forallb_scopes _ _)); [done|].
  intros s Hs. apply list_elem_of_filter. by destruct (Hreq s Hs).
Qed.

(** X18. A scope that the user does not hold is not granted by asking
    for it: with the token of a successful login, an endpoint that
    requires a scope missing from the user record is refused with status
    401, although the scope was requested at login. *)
Theorem unheld_scope_is_not_granted (db : gmap string Ch15.UserInDB)
    (form_data : Ch15.OAuth2PasswordRequestForm) (user : Ch15.UserInDB)
    (required : list string) (s : string) (now now' : Z) :
  db !! Ch15.form_username form_data = Some user ->
  Ch15.username user = Ch15.form_username form_data ->
  pwd_verify (Ch15.form_password form_data) (Ch15.hashed_password user)
  = true ->
  Ch15.disabled user = false ->
  s ∈ required -> s ∉ Ch15.scopes user ->
  timegm now' <= timegm (now + timedelta_minutes 30) ->
  exists tok (e : HTTPException),
    Ch15.login_for_access_token sign pwd_verify db form_data now = inl tok
    /\ Ch15.get_current_user sign db required (Ch15.access_token tok) now'
       = inr e
    /\ status_code e = HTTP_401_UNAUTHORIZED
    /\ detail e = "이 작업에 필요한 권한이 부족합니다".
Proof.
  intros Hdb Hname Hpwd Hdis Hs Hnot Hnow.
  eexists _, _. split; [by apply login15_token|]. cbn.
  unfold Ch15.get_current_user, Ch15.create_access_token.
  assert ((timedelta_minutes Ch15.ACCESS_TOKEN_EXPIRE_MINUTES =? 0) = false)
    as -> by done.
  rewrite verify_encoded15. rewrite decide_True by done. cbn.
  unfold Ch15.get_user. rewrite Hname, Hdb, Hdis.
  destruct (forallb _ required) eqn:Hall; [|done].
  exfalso. pose proof (proj1 (forallb_scopes _ _) Hall s Hs) as Hin.
  by apply list_elem_of_filter in Hin as [? _].
Qed.

(** X19. Scopes are granted at login and not looked up again: when the
    user record is replaced after the login (its scopes taken away, say),
    the token still passes for the scopes it carries, as long as a record
    that is not disabled is stored under the name; the record returned is
    the present one. *)
Theorem token_scopes_outlive_the_record (db db' : gmap string Ch15.UserInDB)
    (form_data : Ch15.OAuth2PasswordRequestForm) (user user' : Ch15.UserInDB)
    (required : list string) (now now' : Z) :
  db !! Ch15.form_username form_data = Some user ->
  Ch15.username user = Ch15.form_username form_data ->
  pwd_verify (Ch15.form_password form_data) (Ch15.hashed_password user)
  = true ->
  (forall s, s ∈ required ->
     s ∈ Ch15.form_scopes form_data /\ s ∈ Ch15.scopes user) ->
  db' !! Ch15.form_username form_data = Some user' ->
  Ch15.disabled user' = false ->
  timegm now' <= timegm (now + timedelta_minutes 30) ->
  exists tok,
    Ch15.login_for_access_token sign pwd_verify db form_data now = inl tok
    /\ Ch15.get_current_user sign db' required (Ch15.access_token tok) now'
       = inl user'.
Proof.
  intros Hdb Hname Hpwd Hreq Hdb' Hdis Hnow.
  eexists. split; [by apply login15_token|]. cbn.
  unfold Ch15.get_current_user, Ch15.create_access_token.
  assert ((timedelta_minutes Ch15.ACCESS_TOKEN_EXPIRE_MINUTES =? 0) = false)
    as -> by done.
  rewrite verify_encoded15. rewrite decide_True by done. cbn.
  unfold Ch15.get_user. rewrite Hname, Hdb', Hdis.
  rewrite (proj2 (forallb_scopes _ _)); [done|].
  intros s Hs. apply list_elem_of_filter. by destruct (Hreq s Hs).
Qed.

(** X20. [admin_delete_user] changes the user store only when it
    succeeds: every failure (401, 400, 403, 404) leaves the store as it
    was; a success means that the caller passed the ADMIN role check,
    named a stored user other than itself, and the store afterwards is
    the store before less exactly that user. *)
Theorem admin_delete_user_effect (db : gmap string Ch15.UserInDB)
    (token : JWT) (now : Z) (target : string) :
  let result := Ch15.admin_delete_user sign db token now target in
  (forall e, result.1 = inr e -> result.2 = db)
  /\ (forall ok, result.1 = inl ok ->
      exists admin deleted,
        Ch15.role_required sign [Ch15.ADMIN] db token now = inl admin
        /\ Ch15.role admin = Ch15.ADMIN
        /\ target <> Ch15.username admin
        /\ db !! target = Some deleted
        /\ Ch15.deleted_user ok = Ch15.full_name deleted
        /\ result.2 = delete target db
        /\ result.2 !! target = None
        /\ forall k, k <> target -> result.2 !! k = db !! k).
Proof.
  intros result. subst result. unfold Ch15.admin_delete_user.
  destruct (Ch15.role_required sign [Ch15.ADMIN] db token now)
    as [admin|e] eqn:Hrole; [|by split].
  case_bool_decide as Hself; [by split|].
  destruct (db !! target) as [deleted|] eqn:Htarget; [|by split].
  cbn. split; [done|]. intros ok [= <-]. exists admin, deleted.
  assert (Hadmin : Ch15.role admin = Ch15.ADMIN).
  { destruct (role_required_inv sign _ _ _ _ _ Hrole) as [_ Hin].
    by apply list_elem_of_singleton in Hin. }
  repeat split; try done.
  - apply lookup_delete_eq.
  - intros k Hk. by apply lookup_delete_ne.
Qed.

(** X21. A deleted user is locked out at once: after a successful
    [admin_delete_user], a token whose subject is the deleted name, valid
    as it may be, is refused by [get_current_user] with the 401
    [credentials_exception]. *)
Theorem deleted_user_is_unauthenticated (db : gmap string Ch15.UserInDB)
    (admin_token : JWT) (now : Z) (target : string) (ok : Ch15.UserDeleted)
    (db' : gmap string Ch15.UserInDB) (security_scopes : list string)
    (token : JWT) (now' : Z) (token_scopes : list string) :
  Ch15.admin_delete_user sign db admin_token now target = (inl ok, db') ->
  Ch15.verify_token sign security_scopes token now'
  = inl {| Ch15.td_username := Some target;
           Ch15.td_scopes := token_scopes |} ->
  Ch15.get_current_user sign db' security_scopes token now'
  = inr (Ch15.credentials_exception security_scopes).
Proof.
  intros Hdel Hv. unfold Ch15.admin_delete_user in Hdel.
  destruct (Ch15.role_required sign [Ch15.ADMIN] db admin_token now)
    as [admin|e]; [|done].
  case_bool_decide; [done|].
  destruct (db !! target) as [deleted|]; [|done].
  injection Hdel as _ <-.
  unfold Ch15.get_current_user. rewrite Hv. cbn. unfold Ch15.get_user.
  by rewrite lookup_delete_eq.
Qed.

(** X22. [create_item] keeps the item numbers in step: the new item gets
    the number of items plus one, is owned by the caller and goes to the
    end of the list; a refused call (missing [items:write] scope, bad
    token, disabled user) adds nothing. So when the items are numbered
    1, 2, ..., n in order before a call, they are so after it. *)
Theorem create_item_numbers (db : gmap string Ch15.UserInDB)
    (items : list Ch15.Item) (token : JWT) (now : Z) (name : string)
    (price : Z) :
  let result := Ch15.create_item sign db items token now name price in
  (forall e, result.1 = inr e -> result.2 = items)
  /\ (forall ok, result.1 = inl ok ->
      exists user,
        Ch15.get_current_user sign db ["items:write"] token now = inl user
        /\ result.2 = items ++ [Ch15.created_item ok]
        /\ Ch15.created_item ok
           = {| Ch15.item_id := Z.of_nat (length items) + 1;
                Ch15.item_name := name;
                Ch15.item_price := price;
                Ch15.item_owner := Ch15.username user |}
        /\ Ch15.created_by ok = Ch15.username user)
  /\ (Ch15.item_id <$> items = Z.of_nat <$> seq 1 (length items) ->
      Ch15.item_id <$> result.2 = Z.of_nat <$> seq 1 (length result.2)).
Proof.
  intros result. subst result. unfold Ch15.create_item.
  destruct (Ch15.get_current_user sign db ["items:write"] token now)
    as [user|e] eqn:Hu; cbn.
  - split; [done|]. split.
    + intros ok [= <-]. by exists user.
    + intros Hids. rewrite fmap_app, length_app, Hids. cbn.
      rewrite Nat.add_1_r, seq_S, fmap_app. cbn. do 3 f_equal. lia.
  - split; [done|]. by split.
Qed.

Lemma login14_token (db : gmap string Ch14.UserInDB)
    (username password : string) (now : Z) (user : Ch14.UserInDB) :
  db !! username = Some user ->
  pwd_verify password (Ch14.hashed_password user) = true ->
  Ch14.login_for_access_token sign pwd_verify db username password now
  = inl {| Ch14.access_token :=
             Ch14.create_access_token sign
               {["sub" := CStr (Ch14.username user)]}
               (Some (timedelta_minutes Ch14.ACCESS_TOKEN_EXPIRE_MINUTES))
               now;
           Ch14.token_type := "bearer" |}.
Proof.
  intros Hdb Hpwd.
  unfold Ch14.login_for_access_token, Ch14.authenticate_user,
    Ch14.verify_password, Ch14.get_user.
  by rewrite Hdb, Hpwd.
Qed.

(** The verification of a token does not depend on the scopes that
    the endpoint requires; only the error it raises names them. *)
Lemma verify_token_any_scopes (scopes1 scopes2 : list string) (token : JWT)
    (now : Z) (token_data : Ch15.TokenData) :
  Ch15.verify_token sign scopes1 token now = inl token_data ->
  Ch15.verify_token sign scopes2 token now = inl token_data.
Proof.
  unfold Ch15.verify_token.
  destruct (decode sign token Ch15.SECRET_KEY [Ch15.ALGORITHM] now)
    as [payload|err]; [|by destruct (is_JWTError err)].
  destruct (payload !! "sub") as [[]|]; try done;
    by destruct (Ch15.as_str_list _).
Qed.

(** X26. A created item shows up on its creator's dashboard: when
    [create_item] succeeds and the same token also passes the role check
    of [user_dashboard] (role ADMIN or USER), the dashboard after the
    call lists the caller's items of before, followed by the new item,
    and counts one more. *)
Theorem created_item_on_dashboard (db : gmap string Ch15.UserInDB)
    (items : list Ch15.Item) (token : JWT) (now : Z) (name : string)
    (price : Z) (ok : Ch15.ItemCreated) (before : Ch15.Dashboard) :
  (Ch15.create_item sign db items token now name price).1 = inl ok ->
  Ch15.user_dashboard sign db items token now = inl before ->
  Ch15.user_dashboard sign db
    (Ch15.create_item sign db items token now name price).2 token now
  = inl {| Ch15.dashboard_user := Ch15.dashboard_user before;
           Ch15.dashboard_role := Ch15.dashboard_role before;
           Ch15.my_items := Ch15.my_items before ++ [Ch15.created_item ok];
           Ch15.my_items_count := Ch15.my_items_count before + 1 |}.
Proof.
  unfold Ch15.create_item, Ch15.user_dashboard, Ch15.role_required,
    Ch15.get_current_user.
  destruct (Ch15.verify_token sign ["items:write"] token now)
    as [token_data|] eqn:Hv; [|done].
  rewrite (verify_token_any_scopes _ [] _ _ _ Hv).
  destruct (from_option (Ch15.get_user db) None
              (Ch15.td_username token_data)) as [user|]; [|done].
  destruct (Ch15.disabled user); [done|].
  destruct (forallb _ ["items:write"]); [|done].
  cbn. intros [= <-].
  destruct (negb _); [done|]. intros [= <-]. cbn.
  rewrite filter_app, filter_cons_True by done.
  rewrite filter_nil, length_app. cbn. do 2 f_equal. lia.
Qed.

(** X23. Register, log in, read the own record: when the password check
    accepts every password against its own hash, a new name can be
    registered, the same name and password then log in, and the token
    gives back, through [read_users_me], the registered record (not
    disabled, without e-mail, with the hashed password) until the end of
    the second in which the 30 minutes run out. *)
Theorem register_login_me (db : gmap string Ch14.UserInDB)
    (user_data : Ch14.UserCreate) (now now' : Z) :
  (forall password, pwd_verify password (pwd_hash password) = true) ->
  db !! Ch14.new_username user_data = None ->
  timegm now' <= timegm (now + timedelta_minutes 30) ->
  let registered := Ch14.register pwd_hash db user_data in
  exists ok tok,
    registered.1 = inl ok
    /\ Ch14.login_for_access_token sign pwd_verify registered.2
         (Ch14.new_username user_data) (Ch14.new_password user_data) now
       = inl tok
    /\ Ch14.read_users_me sign registered.2 (Ch14.access_token tok) now'
       = inl {| Ch14.username := Ch14.new_username user_data;
                Ch14.email := None;
                Ch14.disabled := false;
                Ch14.hashed_password :=
                  pwd_hash (Ch14.new_password user_data) |}.
Proof.
  intros Hhash Hfresh Hnow registered. subst registered.
  unfold Ch14.register. rewrite Hfresh. cbn.
  eexists _, _. split; [done|]. split.
  - apply login14_token; [apply lookup_insert_eq|]. cbn. apply Hhash.
  - cbn. unfold Ch14.read_users_me, Ch14.get_current_active_user,
      Ch14.get_current_user, Ch14.create_access_token.
    assert ((timedelta_minutes Ch14.ACCESS_TOKEN_EXPIRE_MINUTES =? 0) = false)
      as -> by done.
    rewrite verify_encoded14. rewrite decide_True by done.
    unfold Ch14.get_user. by rewrite lookup_insert_eq.
Qed.

(** X24. [register] never overwrites: a name that is taken is refused
    with status 400 and the store is left as it was; registering a new
    name leaves every other record as it was. *)
Theorem register_keeps_existing_users (db : gmap string Ch14.UserInDB)
    (user_data : Ch14.UserCreate) :
  let registered := Ch14.register pwd_hash db user_data in
  (forall existing,
     db !! Ch14.new_username user_data = Some existing ->
     registered
     = (inr {| status_code := HTTP_400_BAD_REQUEST;
               detail := "이미 등록된 사용자명입니다.";
               headers := None |}, db))
  /\ (forall k existing,
        db !! k = Some existing -> registered.2 !! k = Some existing).
Proof.
  intros registered. subst registered. unfold Ch14.register. split.
  - intros existing Hk. by rewrite Hk.
  - intros k existing Hk.
    destruct (db !! Ch14.new_username user_data) eqn:Hnew; cbn; [done|].
    rewrite lookup_insert_ne; [done|]. intros <-. congruence.
Qed.

(** X25. [verify_api_key] accepts exactly the two configured keys and
    returns the key itself; a missing header is answered with status 401
    and any other key with status 403. *)
Theorem verify_api_key_accepts (api_key : option string) :
  (forall key, Ch15.verify_api_key api_key = inl key <->
               api_key = Some key /\ key ∈ Ch15.VALID_API_KEYS)
  /\ (api_key = None ->
      exists e, Ch15.verify_api_key api_key = inr e
                /\ status_code e = HTTP_401_UNAUTHORIZED)
  /\ (forall key, api_key = Some key -> key ∉ Ch15.VALID_API_KEYS ->
      exists e, Ch15.verify_api_key api_key = inr e
                /\ status_code e = HTTP_403_FORBIDDEN).
Proof.
  unfold Ch15.verify_api_key. split; [|split].
  - intros key. destruct api_key as [k|]; [|by split; [|intros [? _]]].
    case_bool_decide as Hin; cbn.
    + split; [by intros [= <-]|by intros [[= <-] _]].
    + split; [done|]. by intros [[= <-] ?].
  - intros ->. by eexists.
  - intros key -> Hnot. rewrite bool_decide_eq_false_2 by done. by eexists.
Qed.

End LoginAndEndpoints.

Section FurtherSamples.
Import Py Ch22 Jose Fastapi Samples.

Lemma set_then_get_live_witness :
  let after := get 5 "k" (set 0 "k" (PyInt 1) 10 __init__) in
  after.1 = PyInt 1
  /\ _store after.2 !! "k" = Some (PyInt 1, 0 + 10)
  /\ _hits after.2 = _hits __init__ + 1
  /\ _misses after.2 = _misses __init__.
Proof. apply (set_then_get_live 0 5 10 "k" (PyInt 1) __init__). lia. Defined.

Lemma set_then_get_expired_witness :
  get 10 "k" (set 0 "k" (PyInt 1) 10 __init__)
  = (PyNone, {| _store := delete "k" (_store __init__);
                _hits := _hits __init__;
                _misses := _misses __init__ + 1 |}).
Proof.
  apply (set_then_get_expired 0 10 10 "k" (PyInt 1) __init__). lia.
Defined.

Lemma other_keys_untouched_witness :
  (get 5 "b" (set 0 "a" (PyInt 1) 10 __init__)).1 = (get 5 "b" __init__).1
  /\ _hits (get 5 "b" (set 0 "a" (PyInt 1) 10 __init__)).2
     = _hits (get 5 "b" __init__).2
  /\ _misses (get 5 "b" (set 0 "a" (PyInt 1) 10 __init__)).2
     = _misses (get 5 "b" __init__).2
  /\ _store (get 5 "a" __init__).2 !! "b" = _store __init__ !! "b"
  /\ _store (set 0 "a" (PyInt 1) 10 __init__) !! "b" = _store __init__ !! "b".
Proof.
  apply (other_keys_untouched 0 5 10 "a" "b" (PyInt 1) __init__).
  discriminate.
Defined.

Lemma cleanup_expired_idempotent_witness :
  cleanup_expired 15
    (cleanup_expired 20 (set 0 "k" (PyInt 1) 10 __init__)).2
  = (0, (cleanup_expired 20 (set 0 "k" (PyInt 1) 10 __init__)).2).
Proof.
  apply (cleanup_expired_idempotent 20 15 (set 0 "k" (PyInt 1) 10 __init__)).
  lia.
Defined.

Lemma cached_recomputes_after_expiry_witness :
  let key := cache_key fetch [PyInt 3] [] in
  let first := cached 30 fetch [PyInt 3] [] 0 1 (empty_world 0) in
  let second := cached 30 fetch [PyInt 3] [] 31 32 first.2 in
  second.1 = Return (PyInt 9)
  /\ invoked second.2
     = [] ++ [this_call fetch [PyInt 3] []; this_call fetch [PyInt 3] []]
  /\ env second.2 = 2
  /\ _store (cache second.2) !! key = Some (PyInt 9, 32 + 30).
Proof.
  apply (cached_recomputes_after_expiry 30 fetch [PyInt 3] [] 0 1 31 32
           (empty_world 0) (PyInt 9) (PyInt 9) 1 2);
    [vm_compute; reflexivity | reflexivity | reflexivity | lia].
Defined.

Lemma cached_retries_after_raise_witness :
  let first := cached 30 fetch [PyInt (-1)] [] 0 1 (empty_world 0) in
  let second := cached 30 fetch [PyInt (-1)] [] 2 3 first.2 in
  first.1 = Raise (mkExn "ValueError" "negative")
  /\ second.1 = (call fetch [PyInt (-1)] [] 1).1
  /\ env second.2 = (call fetch [PyInt (-1)] [] 1).2
  /\ invoked second.2
     = [] ++ [this_call fetch [PyInt (-1)] [];
              this_call fetch [PyInt (-1)] []].
Proof.
  apply (cached_retries_after_raise 30 fetch [PyInt (-1)] [] 0 1 2 3
           (empty_world 0) (mkExn "ValueError" "negative") 1);
    [vm_compute; reflexivity | reflexivity].
Defined.

Lemma alice_reads_items :
  Ch15.get_current_user sample_sign users15 ["items:read"] alice_token 1
  = inl alice.
Proof. vm_compute. reflexivity. Qed.

Lemma authorized_passed_every_guard_witness :
  exists subject token_scopes,
    Ch15.verify_token sample_sign ["items:read"] alice_token 1
    = inl {| Ch15.td_username := Some subject;
             Ch15.td_scopes := token_scopes |}
    /\ users15 !! subject = Some alice
    /\ Ch15.disabled alice = false
    /\ (forall s, s ∈ ["items:read"] -> s ∈ token_scopes).
Proof.
  exact (authorized_passed_every_guard sample_sign users15 ["items:read"]
           alice_token 1 alice alice_reads_items).
Defined.

Lemma dave_token_valid (security_scopes : list string) :
  Ch15.verify_token sample_sign security_scopes dave_token 1
  = inl {| Ch15.td_username := Some "dave";
           Ch15.td_scopes := ["items:read"] |}.
Proof. vm_compute. reflexivity. Qed.

Lemma dave_token14_valid :
  Ch14.verify_token sample_sign dave_token14 1 = inl "dave".
Proof. vm_compute. reflexivity. Qed.

Lemma unknown_subject_is_unauthenticated_witness :
  Ch15.get_current_user sample_sign users15 ["items:read"] dave_token 1
  = inr (Ch15.credentials_exception ["items:read"])
  /\ Ch15.role_required sample_sign [Ch15.VIEWER] users15 dave_token 1
     = inr (Ch15.credentials_exception [])
  /\ Ch14.get_current_active_user sample_sign users14 dave_token14 1
     = inr Ch14.credentials_exception.
Proof.
  apply (unknown_subject_is_unauthenticated sample_sign users15 users14
           ["items:read"] [Ch15.VIEWER] dave_token dave_token14 1
           ["items:read"] "dave" "dave"
           (dave_token_valid _) (dave_token_valid _));
    [vm_compute; reflexivity | exact dave_token14_valid
    | vm_compute; reflexivity].
Defined.

Lemma alice_in_users15 : users15 !! "alice" = Some alice.
Proof. vm_compute. reflexivity. Qed.

Lemma window_sample : timegm 1 <= timegm (0 + timedelta_minutes 30).
Proof. vm_compute. discriminate. Qed.

Lemma login_then_authorized_witness :
  exists tok,
    Ch15.login_for_access_token sample_sign sample_pwd_verify users15
      alice_login 0 = inl tok
    /\ Ch15.get_current_user sample_sign users15 ["items:read"]
         (Ch15.access_token tok) 1
       = inl alice.
Proof.
  apply (login_then_authorized sample_sign sample_pwd_verify users15
           alice_login alice ["items:read"] 0 1 alice_in_users15 eq_refl
           eq_refl eq_refl); [|exact window_sample].
  intros s ->%list_elem_of_singleton. split; apply list_elem_of_here.
Defined.

Lemma unheld_scope_is_not_granted_witness :
  exists tok (e : HTTPException),
    Ch15.login_for_access_token sample_sign sample_pwd_verify users15
      alice_login 0 = inl tok
    /\ Ch15.get_current_user sample_sign users15 ["items:write"]
         (Ch15.access_token tok) 1
       = inr e
    /\ status_code e = HTTP_401_UNAUTHORIZED
    /\ detail e = "이 작업에 필요한 권한이 부족합니다".
Proof.
  apply (unheld_scope_is_not_granted sample_sign sample_pwd_verify users15
           alice_login alice ["items:write"] "items:write" 0 1
           alice_in_users15 eq_refl eq_refl eq_refl);
    [apply list_elem_of_here | | exact window_sample].
  cbn. by intros ?%list_elem_of_singleton.
Defined.

Lemma alice_in_users15_revoked :
  users15_revoked !! "alice" = Some alice_revoked.
Proof. vm_compute. reflexivity. Qed.

Lemma token_scopes_outlive_the_record_witness :
  exists tok,
    Ch15.login_for_access_token sample_sign sample_pwd_verify users15
      alice_login 0 = inl tok
    /\ Ch15.get_current_user sample_sign users15_revoked ["items:read"]
         (Ch15.access_token tok) 1
       = inl alice_revoked.
Proof.
  apply (token_scopes_outlive_the_record sample_sign sample_pwd_verify
           users15 users15_revoked alice_login alice alice_revoked
           ["items:read"] 0 1 alice_in_users15 eq_refl eq_refl);
    [|exact alice_in_users15_revoked|reflexivity|exact window_sample].
  intros s ->%list_elem_of_singleton. split; apply list_elem_of_here.
Defined.

Lemma root_deletes_alice :
  Ch15.admin_delete_user sample_sign users15_admin root_token 1 "alice"
  = (inl {| Ch15.deleted_message := "사용자 'alice'이(가) 삭제되었습니다";
            Ch15.deleted_user := "Alice" |},
     delete "alice" users15_admin).
Proof. vm_compute. reflexivity. Qed.

Lemma deleted_user_is_unauthenticated_witness :
  Ch15.get_current_user sample_sign (delete "alice" users15_admin)
    ["items:read"] alice_token 1
  = inr (Ch15.credentials_exception ["items:read"]).
Proof.
  exact (deleted_user_is_unauthenticated sample_sign users15_admin
           root_token 1 "alice" _ _ ["items:read"] alice_token 1
           ["items:read"] root_deletes_alice (alice_token_valid _)).
Defined.

Lemma sample_hash_verifies (password : string) :
  sample_pwd_verify password (sample_pwd_hash password) = true.
Proof. unfold sample_pwd_verify, sample_pwd_hash. apply String.eqb_refl. Qed.

Lemma dave_not_in_users14 : users14 !! "dave" = None.
Proof. vm_compute. reflexivity. Qed.

Lemma register_login_me_witness :
  let registered :=
    Ch14.register sample_pwd_hash users14
      {| Ch14.new_username := "dave"; Ch14.new_password := "secret1" |} in
  exists ok tok,
    registered.1 = inl ok
    /\ Ch14.login_for_access_token sample_sign sample_pwd_verify
         registered.2 "dave" "secret1" 0
       = inl tok
    /\ Ch14.read_users_me sample_sign registered.2
         (Ch14.access_token tok) 1
       = inl {| Ch14.username := "dave";
                Ch14.email := None;
                Ch14.disabled := false;
                Ch14.hashed_password := sample_pwd_hash "secret1" |}.
Proof.
  exact (register_login_me sample_sign sample_pwd_verify sample_pwd_hash
           users14
           {| Ch14.new_username := "dave"; Ch14.new_password := "secret1" |}
           0 1 sample_hash_verifies dave_not_in_users14 window_sample).
Defined.

Lemma root_creates_item :
  (Ch15.create_item sample_sign users15_admin two_items root_write_token 1
     "keyboard" 150000).1
  = inl {| Ch15.created_message := "아이템이 생성되었습니다";
           Ch15.created_item :=
             {| Ch15.item_id := 3; Ch15.item_name := "keyboard";
                Ch15.item_price := 150000; Ch15.item_owner := "root" |};
           Ch15.created_by := "root" |}.
Proof. vm_compute. reflexivity. Qed.

Lemma root_dashboard_before :
  Ch15.user_dashboard sample_sign users15_admin two_items root_write_token 1
  = inl {| Ch15.dashboard_user := "root";
           Ch15.dashboard_role := Ch15.ADMIN;
           Ch15.my_items :=
             [ {| Ch15.item_id := 1; Ch15.item_name := "laptop";
                  Ch15.item_price := 1200000; Ch15.item_owner := "root" |} ];
           Ch15.my_items_count := 1 |}.
Proof. vm_compute. reflexivity. Qed.

Lemma created_item_on_dashboard_witness :
  Ch15.user_dashboard sample_sign users15_admin
    (Ch15.create_item sample_sign users15_admin two_items root_write_token 1
       "keyboard" 150000).2
    root_write_token 1
  = inl {| Ch15.dashboard_user := "root";
           Ch15.dashboard_role := Ch15.ADMIN;
           Ch15.my_items :=
             [ {| Ch15.item_id := 1; Ch15.item_name := "laptop";
                  Ch15.item_price := 1200000; Ch15.item_owner := "root" |} ]
             ++ [ {| Ch15.item_id := 3; Ch15.item_name := "keyboard";
                     Ch15.item_price := 150000;
                     Ch15.item_owner := "root" |} ];
           Ch15.my_items_count := 1 + 1 |}.
Proof.
  exact (created_item_on_dashboard sample_sign users15_admin two_items
           root_write_token 1 "keyboard" 150000 _ _
           root_creates_item root_dashboard_before).
Defined.

End FurtherSamples.

(* ===================================================================== *)
(** * The models on known values                                          *)
(* ===================================================================== *)

Section KnownValues.
Import Py Hashlib Ch22 Samples.

(** The test suite of RFC 1321. *)
Example md5_of_empty :
  md5_hexdigest (encode EmptyString) = "d41d8cd98f00b204e9800998ecf8427e".
Proof. vm_compute. repeat split. Qed.

Example md5_of_abc :
  md5_hexdigest (encode "abc") = "900150983cd24fb0d6963f7d28e17f72".
Proof. vm_compute. repeat split. Qed.

Example md5_of_two_blocks :
  md5_hexdigest
    (encode ("1234567890123456789012345678901234567890" +:+
             "1234567890123456789012345678901234567890"))
  = "57edf4a22be3c955ac49da2e2107b67a".
Proof. vm_compute. repeat split. Qed.

(** [cached_heavy_computation(100)] *)
Example key_source_of_call :
  key_source (mkFunc (E := unit) "main" "cached_heavy_computation"
                (fun _ _ e => (Return PyNone, e)))
    [PyInt 100] []
  = "cached_heavy_computation:(100,):[]".
Proof. vm_compute. repeat split. Qed.

Example key_source_with_kwargs :
  key_source load_users [PyInt 1; PyStr "a"; PyNone; PyBool true]
    [("b", PyList [PyInt 1; PyInt (-2)]); ("a", PyStr "x'y")]
  = "load:(1, 'a', None, True):[('a', " +:+ str1 dquote +:+ "x'y" +:+
    str1 dquote +:+ "), ('b', [1, -2])]".
Proof. vm_compute. repeat split. Qed.

End KnownValues.
